(** * hololinked: HTTP gateway handlers and serializers

    A shallow embedding of
    - [hololinked/protocols/http/server/handlers.py]  (modules [HttpHandlers]
      and [AdminHandlers]),
    - [hololinked/server/handlers.py]                 (module [LegacyHandlers]),
    - [hololinked/server/serializers.py]              (module [Serializers]),
    - [hololinked/core/logger.py]                     (module [Logger]),
    followed by the properties established about them.

    Python values are an inductive type, dictionaries with string keys are
    finite maps, a raised exception is the [Raise] case of [result], and the
    calls a Tornado [RequestHandler] makes on itself ([set_status],
    [set_header], [write], [flush], [finish]) together with the calls to the
    message broker are recorded, in program order, as a list of [action]s.
    What the collaborators outside these files answer (the broker, the event
    consumer, the peer's socket) is an explicit input of each handler. *)

From Stdlib Require Import ZArith QArith Lia Ascii String.
From stdpp Require Import gmap strings list fin_maps.

Set Warnings "-register-all".
Open Scope string_scope.
Open Scope list_scope.
Open Scope Z_scope.

(** ** Python runtime: values, truth value, exceptions *)

Module Py.

(** The values that travel through the handlers: what a deserializer
    returns, raw [bytes], and the request object itself (which
    [request_as_argument] stores in the argument dictionary). *)
Inductive pyval : Type :=
| PyNone
| PyBool (b : bool)
| PyInt (z : Z)
| PyFloat (q : Q)
| PyStr (s : string)
| PyBytes (b : string)
| PyList (l : list pyval)
| PyDict (m : gmap string pyval)
| PyRequest.

(** [bool(v)], the test behind [if reply:] and [if data:]. *)
Definition truthy (v : pyval) : bool :=
  match v with
  | PyNone => false
  | PyBool b => b
  | PyInt z => negb (z =? 0)
  | PyFloat q => negb (Qeq_bool q 0)
  | PyStr s => negb (String.eqb s EmptyString)
  | PyBytes b => negb (String.eqb b EmptyString)
  | PyList l => negb (Nat.eqb (length l) 0)
  | PyDict m => negb (Nat.eqb (size m) 0)
  | PyRequest => true
  end.

(** Exception classes, as far as the [except] clauses of the handlers tell
    them apart.  [ConnectionAbortedError] is a subclass of
    [ConnectionError]; [ConnectionError] below stands for that class and its
    other subclasses.  [BaseExceptionOnly] is an exception that is not an
    [Exception] (a cancellation, a keyboard interrupt). *)
Inductive exc_class : Type :=
| ConnectionAbortedError
| ConnectionError
| StreamClosedError
| ValueError
| TypeError
| KeyError
| AttributeError
| UnboundLocalError
| RecursionError
| OtherException (name : string)
| BaseExceptionOnly (name : string).

Record exn : Type := mk_exn { exn_class : exc_class; exn_message : string }.

Definition isinstance_ConnectionAbortedError (e : exn) : bool :=
  match exn_class e with ConnectionAbortedError => true | _ => false end.

Definition isinstance_ConnectionError (e : exn) : bool :=
  match exn_class e with
  | ConnectionAbortedError | ConnectionError => true
  | _ => false
  end.

Definition isinstance_StreamClosedError (e : exn) : bool :=
  match exn_class e with StreamClosedError => true | _ => false end.

Definition isinstance_Exception (e : exn) : bool :=
  match exn_class e with BaseExceptionOnly _ => false | _ => true end.

(** A computation that returns or raises. *)
Inductive result (A : Type) : Type :=
| Ok (a : A)
| Raise (e : exn).
Arguments Ok {A} a.
Arguments Raise {A} e.

#[export] Instance result_ret : MRet result := fun _ a => Ok a.
#[export] Instance result_bind : MBind result :=
  fun _ _ f r => match r with Ok a => f a | Raise e => Raise e end.
#[export] Instance result_fmap : FMap result :=
  fun _ _ f r => match r with Ok a => Ok (f a) | Raise e => Raise e end.

(** [v < 0] for a Python value [v]: numbers compare, anything else raises
    [TypeError]. *)
Definition py_lt_zero (v : pyval) : result bool :=
  match v with
  | PyBool _ => Ok false
  | PyInt z => Ok (z <? 0)
  | PyFloat q => Ok (negb (Qle_bool 0 q))
  | _ => Raise (mk_exn TypeError "'<' not supported")
  end.

Definition is_None (v : pyval) : bool :=
  match v with PyNone => true | _ => false end.

(** [d.pop(key, default)]: the value taken and the dictionary left. *)
Definition dict_pop (key : string) (dflt : pyval) (d : gmap string pyval)
  : pyval * gmap string pyval :=
  (default dflt (d !! key), delete key d).

(** The line feed of the byte literals [b'...\n\n']. *)
Definition LF : string := String (Ascii.ascii_of_nat 10) EmptyString.

End Py.

(** ** Tornado: what a request handler does, as a trace *)

Module Tornado.
Import Py.

(** [hololinked.constants.Operations]: the operation names handed to the
    broker. *)
Inductive Operations : Type :=
| readProperty
| writeProperty
| deleteProperty
| invokeAction.

(** One entry per call, in program order.  [AsyncExecute] is
    [zmq_client_pool.async_execute] of the HTTP handlers,
    [LegacyAsyncExecute] the one of the legacy handlers, with the arguments
    each passes.  [UpdateRouter] is an awaited
    [owner_inst.update_router_with_thing], [ScheduleUpdateRouter] the same
    call handed to [event_loop.call_soon]. *)
Inductive action : Type :=
| SetStatus (code : Z) (reason : option string)
| SetHeader (name value : string)
| Write (chunk : pyval)
| Flush
| Finish
| AsyncExecute (thing_id objekt : string) (operation : Operations)
    (payload server_execution_context thing_execution_context : pyval)
| LegacyAsyncExecute (instance_name instruction : string)
    (arguments context : gmap string pyval) (server_timeout : pyval)
| UpdateRouter (instance_name : string)
| ScheduleUpdateRouter (instance_name : string)
| ConsumerExit.

(** How a coroutine ends: it returns, an exception leaves it, or it is
    still awaiting an answer its inputs do not contain. *)
Inductive completion : Type :=
| Returned
| Propagated (e : exn)
| Awaiting.

(** The status line of the response: the last [set_status], 200 when there
    was none. *)
Definition response_status (t : list action) : Z :=
  fold_left (fun s a => match a with SetStatus c _ => c | _ => s end) t 200.

(** The chunks handed to [write], in order (Tornado's write buffer). *)
Definition written (t : list action) : list pyval :=
  omap (fun a => match a with Write c => Some c | _ => None end) t.


(** The value of a response header: the last [set_header] of that name. *)
Definition response_header (name : string) (t : list action) : option string :=
  fold_left
    (fun v a =>
       match a with
       | SetHeader n x => if String.eqb n name then Some x else v
       | _ => v
       end) t None.

Definition is_broker_call (a : action) : bool :=
  match a with
  | AsyncExecute _ _ _ _ _ _ | LegacyAsyncExecute _ _ _ _ _ => true
  | _ => false
  end.

(** The requests that reached the broker. *)
Definition broker_calls (t : list action) : list action :=
  List.filter is_broker_call t.

Definition is_flush (a : action) : bool :=
  match a with Flush => true | _ => false end.

(** The request as the handlers read it: [request.headers],
    [request.body], and [request.query_arguments], a dictionary from a
    name to the list of raw values given for it, in iteration order. *)
Record HTTPServerRequest : Type := {
  headers : gmap string string;
  body : string;
  query_arguments : list (string * list string);
}.

(** The [loads]/[dumps] pair of a serializer; either may raise. *)
Record BaseSerializer : Type := {
  loads : string -> result pyval;
  dumps : pyval -> result string;
}.

End Tornado.

(** ** hololinked/protocols/http/server/handlers.py *)

Module HttpHandlers.
Import Py Tornado.

(** The affordance a handler is bound to ([self.resource]), with the
    attributes the handlers read. *)
Record InteractionAffordance : Type := {
  thing_id : string;
  name : string;
  instance_name : string;
  request_as_argument : bool;
  readOnly : bool;
  writeOnly : bool;
  supported_methods : list string;
  unique_identifier : string;
  socket_address : string;
}.

(** The handler object after [initialize]: the fields its methods read
    through [self].  [content_type] is the one argument in which the
    [set_headers] of [RPCHandler], [JPEGImageHandler] and [PNGImageHandler]
    differ; [data_header] is the text before [%s] in the byte literal of
    the event handlers (all three end in two line feeds);
    [format_exception_as_json] is the helper imported from [utils];
    [inproc_context_is_async] tells whether
    [owner_inst._zmq_inproc_event_context] is a [zmq.asyncio.Context]. *)
Record BaseHandler : Type := {
  resource : InteractionAffordance;
  request : HTTPServerRequest;
  serializer : BaseSerializer;
  allowed_clients : list string;
  content_type : string;
  data_header : string;
  format_exception_as_json : exn -> pyval;
  inproc_context_is_async : bool;
}.

(** [x in l] for a list of strings. *)
Definition py_in (x : string) (l : list string) : bool := bool_decide (x ∈ l).

(** [BaseHandler.has_access_control]: the header it sets and its answer. *)
Definition has_access_control (self : BaseHandler) : list action * bool :=
  if Nat.eqb (length (allowed_clients self)) 0 then
    ([SetHeader "Access-Control-Allow-Origin" "*"], true)
  else
    match headers (request self) !! "Origin" with
    | Some origin =>
        if py_in origin (allowed_clients self)
           || py_in (origin +:+ "/") (allowed_clients self)
        then ([SetHeader "Access-Control-Allow-Origin" origin], true)
        else ([], false)
    | None => ([], false)
    end.

(** The value stored for one query parameter: the deserialized value when
    one was given, the list of the deserialized values otherwise. *)
Definition query_value (s : BaseSerializer) (value : list string) : result pyval :=
  match value with
  | [v0] => loads s v0
  | _ => PyList <$> mapM (loads s) value
  end.

(** The loop [for key, value in self.request.query_arguments.items()]. *)
Fixpoint merge_query_arguments (s : BaseSerializer)
    (items : list (string * list string)) (arguments : gmap string pyval)
  : result (gmap string pyval) :=
  match items with
  | [] => Ok arguments
  | (key, value) :: items' =>
      v ← query_value s value;
      merge_query_arguments s items' (<[key := v]> arguments)
  end.

(** [BaseHandler.get_execution_parameters]: the arguments, the context and
    the timeout. *)
Definition get_execution_parameters (self : BaseHandler)
  : result (pyval * gmap string pyval * pyval) :=
  let req := request self in
  arguments ← (if Nat.ltb 0 (String.length (body req))
               then loads (serializer self) (body req)
               else Ok (PyDict ∅));
  match arguments with
  | PyDict d =>
      d1 ← (if Nat.leb 1 (length (query_arguments req))
            then merge_query_arguments (serializer self) (query_arguments req) d
            else Ok d);
      let '(fetch_execution_logs, d2) :=
        dict_pop "fetch_execution_logs" (PyBool false) d1 in
      let context : gmap string pyval :=
        {[ "fetch_execution_logs" := fetch_execution_logs ]} in
      let '(timeout, d3) := dict_pop "timeout" PyNone d2 in
      negative ← (if is_None timeout then Ok false else py_lt_zero timeout);
      let timeout := if (negative : bool) then PyNone else timeout in
      let d4 := if request_as_argument (resource self)
                then <["request" := PyRequest]> d3 else d3 in
      Ok (PyDict d4, context, timeout)
  | _ => Ok (arguments, ∅, PyInt 5)
  end.

(** [RPCHandler.set_headers] and its overrides in the image handlers. *)
Definition set_headers (self : BaseHandler) : list action :=
  [SetHeader "Content-Type" (content_type self);
   SetHeader "Access-Control-Allow-Credentials" "true"].

(** The [try] block of [handle_through_thing] (lines 179 to 195).  Its
    first statement unpacks what [get_execution_parameters] returns
    into two names.  [get_execution_parameters] returns three values, and
    no class of this file overrides it, so the statement raises
    [ValueError] whenever the call itself returns, and the statements after
    it ([get_payload], the validator, [async_execute], [set_status(200)])
    are not reached: the block ends with the exception of
    [get_execution_parameters], or with this [ValueError].  The result type
    keeps the reply the block would leave in [reply]. *)
Definition try_block (self : BaseHandler) : result pyval :=
  _ ← get_execution_parameters self;
  Raise (mk_exn ValueError "too many values to unpack (expected 2)").

(** The statements after the [try]: [set_headers], the guarded [write],
    [finish]. *)
Definition write_reply (self : BaseHandler) (reply : pyval) : list action :=
  set_headers self
  ++ (if truthy reply then [Write reply] else [])
  ++ [Finish].

(** [RPCHandler.handle_through_thing].  The [except ConnectionError]
    clause calls the method again; [limit] is the number of nested calls
    the interpreter's recursion limit leaves room for, and the call beyond
    it raises [RecursionError], which leaves every caller, each being in
    its [except] clause.  The pool lookup and [update_router_with_thing]
    of that clause are taken to return. *)
Fixpoint handle_through_thing (self : BaseHandler) (operation : Operations)
    (limit : nat) : list action * completion :=
  match limit with
  | O => ([], Propagated (mk_exn RecursionError
                            "maximum recursion depth exceeded"))
  | S limit' =>
      match try_block self with
      | Ok reply =>
          ([SetStatus 200 (Some "ok")] ++ write_reply self reply, Returned)
      | Raise ex =>
          if isinstance_ConnectionAbortedError ex then
            ([SetStatus 503 (Some (exn_message ex));
              ScheduleUpdateRouter (instance_name (resource self))]
             ++ write_reply self PyNone,
             Returned)
          else if isinstance_ConnectionError ex then
            let '(t, c) := handle_through_thing self operation limit' in
            ([UpdateRouter (instance_name (resource self))] ++ t, c)
          else if isinstance_Exception ex then
            let status := [SetStatus 500 (Some "error while scheduling RPC call")] in
            match dumps (serializer self)
                    (PyDict {[ "exception" := format_exception_as_json self ex ]}) with
            | Ok reply => (status ++ write_reply self (PyBytes reply), Returned)
            | Raise e' => (status, Propagated e')
            end
          else ([], Propagated ex)
      end
  end.

(** [PropertyHandler.is_method_allowed].  Python reads the condition as
    [(GET and writeOnly) or (POST or (PUT and readOnly))]. *)
Definition is_method_allowed (self : BaseHandler) (method : string)
  : list action * bool :=
  let '(t, granted) := has_access_control self in
  if negb granted then
    (t ++ [SetStatus 401 (Some "forbidden")], false)
  else if (String.eqb method "GET" && writeOnly (resource self))
          || (String.eqb method "POST"
              || (String.eqb method "PUT" && readOnly (resource self)))
  then (t ++ [SetStatus 405 (Some "method not allowed"); Finish], false)
  else (t, true).

(** The verb methods of [PropertyHandler]. *)
Definition property_verb (self : BaseHandler) (method : string)
    (operation : Operations) (limit : nat)
  : list action * completion :=
  let '(t, allowed) := is_method_allowed self method in
  if negb allowed then (t, Returned)
  else
    let '(t', c) := handle_through_thing self operation limit in
    (t ++ t', c).

Definition property_get (self : BaseHandler) :=
  property_verb self "GET" readProperty.
Definition property_post (self : BaseHandler) :=
  property_verb self "POST" writeProperty.
Definition property_put (self : BaseHandler) :=
  property_verb self "PUT" writeProperty.

(** [ActionHandler.is_method_allowed] and its verb methods, all of which
    invoke the action. *)
Definition action_is_method_allowed (self : BaseHandler) (method : string)
  : list action * bool :=
  let '(t, granted) := has_access_control self in
  if negb granted then
    (t ++ [SetStatus 401 (Some "forbidden")], false)
  else (t, true).

Definition action_verb (self : BaseHandler) (method : string)
    (limit : nat) : list action * completion :=
  let '(t, allowed) := action_is_method_allowed self method in
  if negb allowed then (t, Returned)
  else
    let '(t', c) := handle_through_thing self invokeAction limit in
    (t ++ t', c).

(** [RPCHandler.options]; the [Access-Control-Allow-Headers] value, built
    from the request's header names, is not modelled. *)
Definition options (self : BaseHandler) (allow_headers : string)
  : list action :=
  let '(t, granted) := has_access_control self in
  (if granted then
     t ++ [SetStatus 204 None;
           SetHeader "Access-Control-Allow-Headers" allow_headers;
           SetHeader "Access-Control-Allow-Credentials" "true";
           SetHeader "Access-Control-Allow-Methods"
             (String.concat ", " (supported_methods (resource self)))]
   else t ++ [SetStatus 401 (Some "forbidden")])
  ++ [Finish].

(** [EventHandler.set_headers]. *)
Definition event_set_headers : list action :=
  [SetHeader "Content-Type" "text/event-stream";
   SetHeader "Cache-Control" "no-cache";
   SetHeader "Connection" "keep-alive";
   SetHeader "Access-Control-Allow-Credentials" "true"].

(** [self.data_header % data]: defined for [bytes], a [TypeError]
    otherwise. *)
Definition percent_format (self : BaseHandler) (data : pyval) : result string :=
  match data with
  | PyBytes b => Ok (data_header self +:+ b +:+ LF +:+ LF)
  | _ => Raise (mk_exn TypeError "%b requires a bytes-like object")
  end.

(** One turn of the [while True] loop of [handle_datastream] as the
    outside world answers it: what [receive] (with its 10000 ms bound)
    gives, [None] when nothing arrived in time, and what the [flush] of
    that turn does when the turn reaches it. *)
Record poll : Type := {
  received : result pyval;
  flushed : result unit;
}.

(** The [try] part of one turn: the calls made, and how it ends. *)
Definition datastream_turn (self : BaseHandler) (p : poll)
  : list action * result unit :=
  match received p with
  | Raise e => ([], Raise e)
  | Ok data =>
      if truthy data then
        match percent_format self data with
        | Ok frame => ([Write (PyBytes frame); Flush], flushed p)
        | Raise e => ([], Raise e)
        end
      else ([Flush], flushed p)
  end.

(** The frame written by the [except Exception] clause of the loop. *)
Definition exception_frame (self : BaseHandler) (ex : exn) : result string :=
  b ← dumps (serializer self)
        (PyDict {[ "exception" := format_exception_as_json self ex ]});
  percent_format self (PyBytes b).

(** The statements after the loop. *)
Definition datastream_cleanup (self : BaseHandler) : list action :=
  if inproc_context_is_async self then [ConsumerExit] else [].

(** The [while True] loop of [EventHandler.handle_datastream], followed by
    the clean-up when the loop is left by [break]. *)
Fixpoint datastream_loop (self : BaseHandler) (polls : list poll)
  : list action * completion :=
  match polls with
  | [] => ([], Awaiting)
  | p :: rest =>
      let '(t, r) := datastream_turn self p in
      match r with
      | Ok _ =>
          let '(t', c) := datastream_loop self rest in (t ++ t', c)
      | Raise ex =>
          if isinstance_StreamClosedError ex then
            (t ++ datastream_cleanup self, Returned)
          else if isinstance_Exception ex then
            match exception_frame self ex with
            | Ok frame =>
                let '(t', c) := datastream_loop self rest in
                (t ++ [Write (PyBytes frame)] ++ t', c)
            | Raise e' => (t, Propagated e')
            end
          else (t, Propagated ex)
      end
  end.

(** [EventHandler.handle_datastream]: [subscribed] is the outcome of
    creating the event consumer. *)
Definition handle_datastream (self : BaseHandler) (subscribed : result unit)
    (polls : list poll) : list action * completion :=
  match subscribed with
  | Ok _ =>
      let '(t, c) := datastream_loop self polls in
      (SetStatus 200 None :: t, c)
  | Raise ex =>
      if isinstance_Exception ex then
        let status :=
          [SetStatus 500 (Some "could not subscribe to event source from thing")] in
        match dumps (serializer self)
                (PyDict {[ "exception" := format_exception_as_json self ex ]}) with
        | Ok b => (status ++ [Write (PyBytes b)], Returned)
        | Raise e' => (status, Propagated e')
        end
      else ([], Propagated ex)
  end.

(** [EventHandler.get]. *)
Definition event_get (self : BaseHandler) (subscribed : result unit)
    (polls : list poll) : list action * completion :=
  let '(t, granted) := has_access_control self in
  if granted then
    let '(t', c) := handle_datastream self subscribed polls in
    match c with
    | Returned => (t ++ event_set_headers ++ t' ++ [Finish], Returned)
    | _ => (t ++ event_set_headers ++ t', c)
    end
  else (t ++ [SetStatus 401 (Some "forbidden"); Finish], Returned).

End HttpHandlers.

(** ** hololinked/server/handlers.py (the legacy handlers) *)

Module LegacyHandlers.
Import Py Tornado.

(** [self.resource]: an [HTTPResource] (or a [ServerSentEvent], which has
    the last two fields).  [instructions] answers both
    [http_method in instructions] and [instructions.__dict__[http_method]]. *)
Record HTTPResource : Type := {
  instance_name : string;
  instructions : gmap string string;
  request_as_argument : bool;
  socket_address : string;
  event_name : string;
}.

(** The handler object: [resource] and [CORS] are set by [initialize], the
    serializer is the class attribute [json_serializer], and
    [format_exception_as_json] is the helper imported from
    [webserver_utils]. *)
Record BaseHandler : Type := {
  resource : HTTPResource;
  CORS : list string;
  request : HTTPServerRequest;
  json_serializer : BaseSerializer;
  format_exception_as_json : exn -> pyval;
}.

Definition query_value (s : BaseSerializer) (value : list string) : result pyval :=
  match value with
  | [v0] => loads s v0
  | _ => PyList <$> mapM (loads s) value
  end.

Fixpoint merge_query_arguments (s : BaseSerializer)
    (items : list (string * list string)) (arguments : gmap string pyval)
  : result (gmap string pyval) :=
  match items with
  | [] => Ok arguments
  | (key, value) :: items' =>
      v ← query_value s value;
      merge_query_arguments s items' (<[key := v]> arguments)
  end.

(** One element of a sequence given to [dict.update], which must be an
    iterable with two elements, the key and the value.  A string is the
    sequence of its characters, so a string of two characters is a pair;
    numbers, booleans and [None] are not iterable; a list or a dictionary
    as key is not hashable.  The answer is [None] where Python stores
    something a dictionary with string keys cannot hold or this model of
    values does not determine: a key that is not a string ([[1, v]],
    [[None, v]], a [bytes] of length two), or a dictionary with two keys,
    whose first key would be the key and whose second the value, in the
    order of iteration. *)
Definition update_pair (d : gmap string pyval) (item : pyval)
  : option (result (gmap string pyval)) :=
  let wrong_length :=
    Some (Raise (mk_exn ValueError
                   "dictionary update sequence element has length other than 2")) in
  match item with
  | PyList [k; v] =>
      match k with
      | PyStr k => Some (Ok (<[k := v]> d))
      | PyList _ | PyDict _ => Some (Raise (mk_exn TypeError "unhashable type"))
      | _ => None
      end
  | PyList _ => wrong_length
  | PyStr (String c1 (String c2 EmptyString)) =>
      Some (Ok (<[String c1 EmptyString := PyStr (String c2 EmptyString)]> d))
  | PyStr _ => wrong_length
  | PyDict m => if Nat.eqb (size m) 2 then None else wrong_length
  | PyBytes b => if Nat.eqb (String.length b) 2 then None else wrong_length
  | PyNone | PyBool _ | PyInt _ | PyFloat _ | PyRequest =>
      Some (Raise (mk_exn TypeError
                     "cannot convert dictionary update sequence element to a sequence"))
  end.

(** The elements of a sequence, in order, until one raises. *)
Fixpoint update_pairs (d : gmap string pyval) (items : list pyval)
  : option (result (gmap string pyval)) :=
  match items with
  | [] => Some (Ok d)
  | item :: items' =>
      match update_pair d item with
      | Some (Ok d') => update_pairs d' items'
      | other => other
      end
  end.

(** [d.update(other)] for a deserialized value: a dictionary is merged in
    and wins on the keys it has; a list is read as a sequence of pairs; a
    string is a sequence of strings of one character, so only the empty
    one is accepted, and [bytes] a sequence of numbers; anything else is
    not iterable. *)
Definition dict_update (d : gmap string pyval) (other : pyval)
  : option (result (gmap string pyval)) :=
  match other with
  | PyDict m => Some (Ok (m ∪ d))
  | PyList l => update_pairs d l
  | PyStr s =>
      if String.eqb s EmptyString then Some (Ok d)
      else Some (Raise (mk_exn ValueError
                          "dictionary update sequence element has length other than 2"))
  | PyBytes s =>
      if String.eqb s EmptyString then Some (Ok d)
      else Some (Raise (mk_exn TypeError
                          "cannot convert dictionary update sequence element to a sequence"))
  | _ => Some (Raise (mk_exn TypeError "object is not iterable"))
  end.

(** [BaseHandler.prepare_arguments]; [None] where [dict_update] is. *)
Definition prepare_arguments (self : BaseHandler)
  : option (result (gmap string pyval)) :=
  let req := request self in
  match (if Nat.leb 1 (length (query_arguments req))
         then merge_query_arguments (json_serializer self)
                (query_arguments req) ∅
         else Ok ∅) with
  | Raise e => Some (Raise e)
  | Ok arguments =>
      if Nat.ltb 0 (String.length (body req)) then
        match loads (json_serializer self) (body req) with
        | Raise e => Some (Raise e)
        | Ok other => dict_update arguments other
        end
      else Some (Ok arguments)
  end.

(** [RPCHandler.set_custom_default_headers]. *)
Definition set_custom_default_headers : list action :=
  [SetStatus 200 None;
   SetHeader "Content-Type" "application/json";
   SetHeader "Access-Control-Allow-Credentials" "true"].

(** [RPCHandler.has_access_control]: its first statement is [return True];
    the lines after it, which read the [Origin] header and [self.CORS],
    are never run. *)
Definition has_access_control (self : BaseHandler) : bool := true.

(** The [try] block of [handle_through_remote_object], for the arguments
    [prepare_arguments] gave or the exception it raised: the calls made
    and the reply or the exception the block ends with.  [outcome] is what
    [async_execute] does if it is called. *)
Definition remote_object_try (self : BaseHandler) (instruction : string)
    (prepared : result (gmap string pyval)) (outcome : result pyval)
  : list action * result pyval :=
  match prepared with
  | Raise e => ([], Raise e)
  | Ok arguments =>
      let '(fetch_execution_logs, a1) :=
        dict_pop "fetch_execution_logs" (PyBool false) arguments in
      let context : gmap string pyval :=
        {[ "fetch_execution_logs" := fetch_execution_logs ]} in
      let '(timeout, a2) := dict_pop "timeout" PyNone a1 in
      let a3 := if request_as_argument (resource self)
                then <["request" := PyRequest]> a2 else a2 in
      let call :=
        LegacyAsyncExecute (instance_name (resource self)) instruction
          a3 context timeout in
      match outcome with
      | Ok reply => (call :: set_custom_default_headers, Ok reply)
      | Raise e => ([call], Raise e)
      end
  end.

Definition write_if_truthy (reply : pyval) : list action :=
  if truthy reply then [Write reply] else [].

(** The [try] statement of [handle_through_remote_object] with its
    [except] clause and the guarded [write] after it, for the arguments
    [prepare_arguments] gave or the exception it raised. *)
Definition answered (self : BaseHandler) (instruction : string)
    (prepared : result (gmap string pyval)) (outcome : result pyval)
  : list action * completion :=
  let '(t, r) := remote_object_try self instruction prepared outcome in
  match r with
  | Ok reply => (t ++ write_if_truthy reply, Returned)
  | Raise ex =>
      if isinstance_Exception ex then
        match dumps (json_serializer self) (format_exception_as_json self ex) with
        | Ok b => (t ++ write_if_truthy (PyBytes b), Returned)
        | Raise e' => (t, Propagated e')
        end
      else (t, Propagated ex)
  end.

(** [RPCHandler.handle_through_remote_object]; [None] where
    [prepare_arguments] is. *)
Definition handle_through_remote_object (self : BaseHandler)
    (http_method : string) (outcome : result pyval)
  : option (list action * completion) :=
  match instructions (resource self) !! http_method with
  | None => Some ([SetStatus 404 (Some "not found")], Returned)
  | Some instruction =>
      if has_access_control self then
        prepared ← prepare_arguments self;
        Some (answered self instruction prepared outcome)
      else Some ([SetStatus 403 (Some "not autheticated")], Returned)
  end.

(** The verb methods of [RPCHandler].  [put] and [delete] call
    [handle_through_remote_object]; [get], [post] and [patch] call
    [handled_through_remote_object], a name no class defines. *)
Definition verb_via_handle (self : BaseHandler) (http_method : string)
    (outcome : result pyval) : option (list action * completion) :=
  '(t, c) ← handle_through_remote_object self http_method outcome;
  match c with
  | Returned => Some (t ++ [Finish], Returned)
  | _ => Some (t, c)
  end.

Definition put (self : BaseHandler) := verb_via_handle self "PUT".
Definition delete (self : BaseHandler) := verb_via_handle self "DELETE".

Definition verb_via_handled (self : BaseHandler) : list action * completion :=
  ([], Propagated (mk_exn AttributeError "handled_through_remote_object")).

Definition get (self : BaseHandler) := verb_via_handled self.
Definition post (self : BaseHandler) := verb_via_handled self.
Definition patch (self : BaseHandler) := verb_via_handled self.

(** The byte literal [b'data: %s\n\n'] of [handle_datastream] applied to
    [data]. *)
Definition percent_format (data : pyval) : result string :=
  match data with
  | PyBytes b => Ok ("data: " +:+ b +:+ LF +:+ LF)
  | _ => Raise (mk_exn TypeError "%b requires a bytes-like object")
  end.

(** One turn of the loop as the outside world answers it: what
    [receive_event] gives, and what [flush] does if the turn reaches it. *)
Record poll : Type := {
  received : result pyval;
  flushed : result unit;
}.

Definition datastream_turn (p : poll) : list action * result unit :=
  match received p with
  | Raise e => ([], Raise e)
  | Ok data =>
      if truthy data then
        match percent_format data with
        | Ok frame => ([Write (PyBytes frame); Flush], flushed p)
        | Raise e => ([], Raise e)
        end
      else ([], Ok tt)
  end.

Definition exception_frame (self : BaseHandler) (ex : exn) : result string :=
  b ← dumps (json_serializer self) (format_exception_as_json self ex);
  percent_format (PyBytes b).

(** The inner [while True] loop with [event_consumer.exit()] after it; an
    exception that leaves it is returned in [Propagated] for the outer
    [except] clause. *)
Fixpoint datastream_loop (self : BaseHandler) (polls : list poll)
  : list action * completion :=
  match polls with
  | [] => ([], Awaiting)
  | p :: rest =>
      let '(t, r) := datastream_turn p in
      match r with
      | Ok _ =>
          let '(t', c) := datastream_loop self rest in (t ++ t', c)
      | Raise ex =>
          if isinstance_StreamClosedError ex then
            (t ++ [ConsumerExit], Returned)
          else if isinstance_Exception ex then
            match exception_frame self ex with
            | Ok frame =>
                let '(t', c) := datastream_loop self rest in
                (t ++ [Write (PyBytes frame)] ++ t', c)
            | Raise e' => (t, Propagated e')
            end
          else (t, Propagated ex)
      end
  end.

(** [EventHandler.handle_datastream].  When creating the consumer raises,
    the outer [except] clause reads [data_header] before it was assigned. *)
Definition handle_datastream (self : BaseHandler) (subscribed : result unit)
    (polls : list poll) : list action * completion :=
  match subscribed with
  | Raise ex =>
      if isinstance_Exception ex
      then ([], Propagated (mk_exn UnboundLocalError "data_header"))
      else ([], Propagated ex)
  | Ok _ =>
      let '(t, c) := datastream_loop self polls in
      match c with
      | Propagated ex =>
          if isinstance_Exception ex then
            match exception_frame self ex with
            | Ok frame => (t ++ [Write (PyBytes frame)], Returned)
            | Raise e' => (t, Propagated e')
            end
          else (t, c)
      | _ => (t, c)
      end
  end.

End LegacyHandlers.

(** ** hololinked/server/serializers.py *)

Module Serializers.
Import Py.

(** The objects handed to [dumps].  The first seven are what JSON has of
    its own; the others are the classes [JSONSerializer.default] tests for,
    each with what the methods [default] calls on it return
    ([name], [str(obj)], [isoformat()], [_inner], [tolist()], ...).
    [OInstance] is an instance of any other class, and [OWithJson result
    base] an object like [base] whose class also defines [json()],
    returning [result]. *)
Inductive pyobj : Type :=
| ONone
| OBool (b : bool)
| OInt (z : Z)
| OFloat (q : Q)
| OStr (s : string)
| OList (items : list pyobj)
| ODict (items : list (string * pyobj))
| OBytes (b : string)
| OTuple (items : list pyobj)
| OSet (elements : list pyobj)
| ODictKeys (keys : list pyobj)
| ODeque (items : list pyobj)
| OEnum (cls : string) (name : string) (value : pyobj)
| OTypeConstrained (cls : string) (inner : pyobj)
| OUUID (str_ : string)
| ODatetime (isoformat : string)
| ODate (isoformat : string)
| ODecimal (str_ : string)
| OException (e : exn)
| OArray (typecode : string) (tostring tounicode : string) (tolist : list pyobj)
| OInstance (cls : string) (state : string)
| OWithJson (result : pyobj) (base : pyobj).

(** What can be given as [object_type]: the class [type] itself, another
    class, or an object that is not a class. *)
Inductive pyref : Type :=
| TheTypeType
| AClass (qualname : string)
| NotAClass (repr : string).

#[export] Instance pyref_eq_dec : EqDecision pyref.
Proof. solve_decision. Defined.

#[export] Instance pyref_countable : Countable pyref.
Proof.
  refine (inj_countable'
    (fun r => match r with
              | TheTypeType => inl tt
              | AClass n => inr (inl n)
              | NotAClass n => inr (inr n)
              end)
    (fun x => match x with
              | inl _ => TheTypeType
              | inr (inl n) => AClass n
              | inr (inr n) => NotAClass n
              end) _).
  intros []; reflexivity.
Defined.

Definition inspect_isclass (r : pyref) : bool :=
  match r with NotAClass _ => false | _ => true end.

Definition is_type (r : pyref) : bool :=
  match r with TheTypeType => true | _ => false end.

(** [type(obj)]. *)
Definition type_of (obj : pyobj) : pyref :=
  match obj with
  | ONone => AClass "NoneType"
  | OBool _ => AClass "bool"
  | OInt _ => AClass "int"
  | OFloat _ => AClass "float"
  | OStr _ => AClass "str"
  | OList _ => AClass "list"
  | ODict _ => AClass "dict"
  | OBytes _ => AClass "bytes"
  | OTuple _ => AClass "tuple"
  | OSet _ => AClass "set"
  | ODictKeys _ => AClass "dict_keys"
  | ODeque _ => AClass "collections.deque"
  | OEnum cls _ _ => AClass cls
  | OTypeConstrained cls _ => AClass cls
  | OUUID _ => AClass "uuid.UUID"
  | ODatetime _ => AClass "datetime.datetime"
  | ODate _ => AClass "datetime.date"
  | ODecimal _ => AClass "decimal.Decimal"
  | OException _ => AClass "Exception"
  | OArray _ _ _ _ => AClass "array.array"
  | OInstance cls _ => AClass cls
  | OWithJson _ (OInstance cls _) => AClass cls
  | OWithJson _ _ => AClass "object"
  end.

(** A replacement function answers with the object it was given or with
    another one, or raises. *)
Inductive replaced : Type :=
| SameObject
| NewObject (o : pyobj).

Definition replacement : Type := pyobj -> result replaced.

Definition call_replacement (f : replacement) (obj : pyobj) : result pyobj :=
  r ← f obj;
  match r with SameObject => Ok obj | NewObject o => Ok o end.

(** [BaseSerializer.convert_to_bytes]. *)
Inductive buffer : Type :=
| Bytes (b : string)
| Bytearray (b : string)
| Memoryview (b : string)
| NotABuffer.

Definition convert_to_bytes (data : buffer) : result string :=
  match data with
  | Bytes b => Ok b
  | Bytearray b => Ok b
  | Memoryview b => Ok b
  | NotABuffer =>
      Raise (mk_exn TypeError
        "serializer convert_to_bytes accepts only bytes, bytearray or memoryview")
  end.

(** [JSONSerializer.default].  [fmt] is [format_exception_as_json] and
    [registry] the class attribute [_type_replacements]. *)
Definition default (fmt : exn -> pyobj) (registry : gmap pyref replacement)
    (obj : pyobj) : result pyobj :=
  match obj with
  | OWithJson r _ => Ok r
  | OEnum _ name _ => Ok (OStr name)
  | OSet xs | ODictKeys xs | ODeque xs | OTuple xs => Ok (OList xs)
  | OTypeConstrained _ inner => Ok inner
  | OUUID s => Ok (OStr s)
  | ODatetime iso | ODate iso => Ok (OStr iso)
  | ODecimal s => Ok (OStr s)
  | OException e => Ok (fmt e)
  | OArray typecode tostring tounicode tolist =>
      if String.eqb typecode "c" then Ok (OBytes tostring)
      else if String.eqb typecode "u" then Ok (OStr tounicode)
      else Ok (OList tolist)
  | _ =>
      match registry !! type_of obj with
      | Some replacer => call_replacement replacer obj
      | None =>
          Raise (mk_exn TypeError "Given type cannot be converted to JSON")
      end
  end.

(** [JSONSerializer.register_type_replacement], on the registry it
    updates: the registry after the call and how the call ends. *)
Definition register_type_replacement (registry : gmap pyref replacement)
    (object_type : pyref) (replacement_function : replacement)
  : gmap pyref replacement * result unit :=
  if is_type object_type || negb (inspect_isclass object_type) then
    (registry,
     Raise (mk_exn ValueError
       "refusing to register replacement for a non-type or the type 'type' itself"))
  else (<[object_type := replacement_function]> registry, Ok tt).

(** What the [custom_serializer] closure of
    [SerpentSerializer.register_type_replacement] asks of serpent. *)
Inductive serpent_call : Type :=
| SerDefaultClass (o : pyobj)
| Serialize (o : pyobj).

Definition custom_serializer (replacement_function : replacement)
    (obj : pyobj) : result serpent_call :=
  r ← replacement_function obj;
  match r with
  | SameObject => Ok (SerDefaultClass obj)
  | NewObject o => Ok (Serialize o)
  end.

(** [SerpentSerializer.register_type_replacement], on the class registry
    of serpent that [serpent.register_class] updates. *)
Definition serpent_register_type_replacement
    (classes : gmap pyref (pyobj -> result serpent_call))
    (object_type : pyref) (replacement_function : replacement)
  : gmap pyref (pyobj -> result serpent_call) * result unit :=
  if is_type object_type || negb (inspect_isclass object_type) then
    (classes,
     Raise (mk_exn ValueError
       "refusing to register replacement for a non-type or the type 'type' itself"))
  else (<[object_type := custom_serializer replacement_function]> classes, Ok tt).

(** The JSON library behind [JSONSerializer]: [native_option] is its own
    encoding of an object that is not plain JSON, when it has one (then it
    does not ask [enc_hook]); [encode_document] and [decode_document] are
    the text of a JSON document and its parse. *)
Record backend : Type := {
  native_option : pyobj -> option pyval;
  encode_document : pyval -> string;
  decode_document : string -> result pyval;
}.

(** [json.encode(data, enc_hook=...)] up to the text: plain JSON is
    encoded as it stands, an object the library has an option for is
    encoded by it, and any other object is given to [enc_hook] and the
    answer encoded in its turn.  [fuel] bounds the nesting. *)
Fixpoint encode (lib : backend) (enc_hook : pyobj -> result pyobj)
    (fuel : nat) (obj : pyobj) : result pyval :=
  match fuel with
  | O => Raise (mk_exn RecursionError "maximum recursion depth exceeded")
  | S fuel' =>
      match obj with
      | ONone => Ok PyNone
      | OBool b => Ok (PyBool b)
      | OInt z => Ok (PyInt z)
      | OFloat q => Ok (PyFloat q)
      | OStr s => Ok (PyStr s)
      | OList items => PyList <$> mapM (encode lib enc_hook fuel') items
      | ODict items =>
          kvs ← mapM (fun kv => pair kv.1 <$> encode lib enc_hook fuel' kv.2) items;
          Ok (PyDict (list_to_map kvs))
      | _ =>
          match native_option lib obj with
          | Some doc => Ok doc
          | None => obj' ← enc_hook obj; encode lib enc_hook fuel' obj'
          end
      end
  end.

(** [JSONSerializer.dumps] and [JSONSerializer.loads]. *)
Definition dumps (lib : backend) (fmt : exn -> pyobj)
    (registry : gmap pyref replacement) (fuel : nat) (data : pyobj)
  : result string :=
  encode_document lib <$> encode lib (default fmt registry) fuel data.

Definition loads (lib : backend) (data : buffer) : result pyval :=
  b ← convert_to_bytes data; decode_document lib b.

End Serializers.

(** ** Sample requests, resources and collaborators

    Concrete inputs on which the handlers are run below. *)

Module Samples.
Import Py Tornado.

(** The double quote, for the text of JSON documents. *)
Definition DQ : string := String (Ascii.ascii_of_nat 34) EmptyString.

(** The JSON text of an object with one member whose value is [v]. *)
Definition object_text (key v : string) : string :=
  "{" +:+ DQ +:+ key +:+ DQ +:+ ":" +:+ v +:+ "}".

Fixpoint digits (s : string) (acc : Z) : option Z :=
  match s with
  | EmptyString => Some acc
  | String c s' =>
      let n := Z.of_nat (Ascii.nat_of_ascii c) - 48 in
      if (0 <=? n) && (n <=? 9) then digits s' (10 * acc + n) else None
  end.

Definition parse_int (s : string) : option Z :=
  match s with
  | EmptyString => None
  | String c s' =>
      if Ascii.eqb c "-"%char then
        match s' with
        | EmptyString => None
        | _ => Z.opp <$> digits s' 0
        end
      else digits s 0
  end.

(** A deserializer for the documents used below: decimal integers, the
    three JSON literals, and the object [{"a":1}]. *)
Definition sample_loads (raw : string) : result pyval :=
  match parse_int raw with
  | Some z => Ok (PyInt z)
  | None =>
      if String.eqb raw "null" then Ok PyNone
      else if String.eqb raw "true" then Ok (PyBool true)
      else if String.eqb raw "false" then Ok (PyBool false)
      else if String.eqb raw (object_text "a" "1")
      then Ok (PyDict {[ "a" := PyInt 1 ]})
      else Raise (mk_exn (OtherException "DecodeError") "malformed document")
  end.

Definition sample_serializer : BaseSerializer :=
  {| loads := sample_loads;
     dumps := fun _ => Ok "{exception document}" |}.

Definition sample_format_exception (e : exn) : pyval := PyStr (exn_message e).

Definition plain_request : HTTPServerRequest :=
  {| headers := ∅; body := EmptyString; query_arguments := [] |}.

Definition request_from (origin : string) : HTTPServerRequest :=
  {| headers := {[ "Origin" := origin ]};
     body := EmptyString;
     query_arguments := [] |}.

(** Body [{"a":1}] with the query string [?b=2&c=3&c=4]. *)
Definition merge_request : HTTPServerRequest :=
  {| headers := ∅;
     body := object_text "a" "1";
     query_arguments := [("b", ["2"]); ("c", ["3"; "4"])] |}.

(** Body [{"a":1}] with the query string [?a=2]. *)
Definition clash_request : HTTPServerRequest :=
  {| headers := ∅;
     body := object_text "a" "1";
     query_arguments := [("a", ["2"])] |}.

(** The query string [?timeout=-5], no body. *)
Definition negative_timeout_request : HTTPServerRequest :=
  {| headers := ∅;
     body := EmptyString;
     query_arguments := [("timeout", ["-5"])] |}.

(** A body that is no JSON document, no query string. *)
Definition undecodable_request : HTTPServerRequest :=
  {| headers := ∅; body := "{not json"; query_arguments := [] |}.

Definition writable_property : HttpHandlers.InteractionAffordance :=
  {| HttpHandlers.thing_id := "spectrometer";
     HttpHandlers.name := "integration_time";
     HttpHandlers.instance_name := "spectrometer";
     HttpHandlers.request_as_argument := false;
     HttpHandlers.readOnly := false;
     HttpHandlers.writeOnly := false;
     HttpHandlers.supported_methods := ["GET"; "POST"; "PUT"];
     HttpHandlers.unique_identifier := "spectrometer/integration-time";
     HttpHandlers.socket_address := "tcp://localhost:5556" |}.

Definition http_handler (clients : list string) (req : HTTPServerRequest)
  : HttpHandlers.BaseHandler :=
  {| HttpHandlers.resource := writable_property;
     HttpHandlers.request := req;
     HttpHandlers.serializer := sample_serializer;
     HttpHandlers.allowed_clients := clients;
     HttpHandlers.content_type := "application/json";
     HttpHandlers.data_header := "data: ";
     HttpHandlers.format_exception_as_json := sample_format_exception;
     HttpHandlers.inproc_context_is_async := false |}.

Definition legacy_resource : LegacyHandlers.HTTPResource :=
  {| LegacyHandlers.instance_name := "spectrometer";
     LegacyHandlers.instructions :=
       {[ "PUT" := "/spectrometer/integration-time/write" ]};
     LegacyHandlers.request_as_argument := false;
     LegacyHandlers.socket_address := "tcp://localhost:5556";
     LegacyHandlers.event_name := "measurement" |}.

Definition legacy_handler (cors : list string) (req : HTTPServerRequest)
  : LegacyHandlers.BaseHandler :=
  {| LegacyHandlers.resource := legacy_resource;
     LegacyHandlers.CORS := cors;
     LegacyHandlers.request := req;
     LegacyHandlers.json_serializer := sample_serializer;
     LegacyHandlers.format_exception_as_json := sample_format_exception |}.

(** A small JSON library for the round trips below: it prints and parses
    strings (without escapes) and lists of them, has no encoding of its
    own for any other object, and so asks [enc_hook] for all of them. *)
Fixpoint take_string (s acc : string) : option (string * string) :=
  match s with
  | EmptyString => None
  | String c s' =>
      if Ascii.eqb c (Ascii.ascii_of_nat 34) then Some (acc, s')
      else take_string s' (acc +:+ String c EmptyString)
  end.

Fixpoint parse_strings (fuel : nat) (s : string) : option (list string) :=
  match fuel with
  | O => None
  | S fuel' =>
      match s with
      | String c s' =>
          if Ascii.eqb c (Ascii.ascii_of_nat 34) then
            match take_string s' EmptyString with
            | Some (x, String c' rest) =>
                if Ascii.eqb c' "]"%char then
                  match rest with EmptyString => Some [x] | _ => None end
                else if Ascii.eqb c' ","%char then cons x <$> parse_strings fuel' rest
                else None
            | _ => None
            end
          else None
      | EmptyString => None
      end
  end.

Definition print_string (s : string) : string := DQ +:+ s +:+ DQ.

Definition sample_encode_document (doc : pyval) : string :=
  match doc with
  | PyStr s => print_string s
  | PyList l =>
      "[" +:+ String.concat ","
                (omap (fun d => match d with
                                | PyStr s => Some (print_string s)
                                | _ => None
                                end) l)
          +:+ "]"
  | _ => "null"
  end.

Definition sample_decode_document (text : string) : result pyval :=
  let malformed := Raise (mk_exn (OtherException "DecodeError") "malformed document") in
  match text with
  | String c rest =>
      if Ascii.eqb c (Ascii.ascii_of_nat 34) then
        match take_string rest EmptyString with
        | Some (x, EmptyString) => Ok (PyStr x)
        | _ => malformed
        end
      else if Ascii.eqb c "["%char then
        if String.eqb rest "]" then Ok (PyList [])
        else match parse_strings (String.length rest) rest with
             | Some l => Ok (PyList (PyStr <$> l))
             | None => malformed
             end
      else if String.eqb text "null" then Ok PyNone
      else malformed
  | EmptyString => malformed
  end.

Definition sample_backend : Serializers.backend :=
  {| Serializers.native_option := fun _ => None;
     Serializers.encode_document := sample_encode_document;
     Serializers.decode_document := sample_decode_document |}.

(** The same library with the encoding msgspec has of its own for the
    members of an enum: a member is encoded as its value, and [enc_hook]
    is not asked. *)
Definition enum_by_value_backend : Serializers.backend :=
  {| Serializers.native_option :=
       fun o =>
         match o with
         | Serializers.OEnum _ _ (Serializers.OStr s) => Some (PyStr s)
         | Serializers.OEnum _ _ (Serializers.OInt z) => Some (PyInt z)
         | _ => None
         end;
     Serializers.encode_document := sample_encode_document;
     Serializers.decode_document := sample_decode_document |}.

Definition sample_format_exception_object (e : exn) : Serializers.pyobj :=
  Serializers.OStr (exn_message e).

(** A replacement function for instances of a class [Quantity]. *)
Definition quantity_replacement : Serializers.replacement :=
  fun obj =>
    match obj with
    | Serializers.OInstance _ state =>
        Ok (Serializers.NewObject (Serializers.OStr state))
    | _ => Ok Serializers.SameObject
    end.

End Samples.

(** ** Notions used in the statements below *)

Module Notions.
Import Py Tornado HttpHandlers.

Definition is_update_router (a : action) : bool :=
  match a with UpdateRouter _ => true | _ => false end.

(** The raw values given for one query parameter deserialize to [v]: one
    value to its deserialization, several to the list of theirs. *)
Definition deserializes (s : BaseSerializer) (value : list string) (v : pyval)
  : Prop :=
  match value with
  | [raw] => loads s raw = Ok v
  | raws =>
      exists vs, Forall2 (fun raw x => loads s raw = Ok x) raws vs /\ v = PyList vs
  end.

(** The request carries the JSON object [d] as its body (the empty object
    when it has no body) and the query parameters [q], each name once, with
    their deserialized values. *)
Definition request_decodes (s : BaseSerializer) (req : HTTPServerRequest)
    (d : gmap string pyval) (q : list (string * pyval)) : Prop :=
  (if Nat.ltb 0 (String.length (body req))
   then loads s (body req) = Ok (PyDict d) else d = ∅)
  /\ Forall2 (fun item kv => kv.1 = item.1 /\ deserializes s item.2 kv.2)
       (query_arguments req) q
  /\ NoDup q.*1.

(** A value that [<] compares with [0]. *)
Definition is_number (v : pyval) : bool :=
  match v with PyBool _ | PyInt _ | PyFloat _ => true | _ => false end.

(** A number below zero. *)
Definition negative_number (v : pyval) : bool :=
  match py_lt_zero v with Ok true => true | _ => false end.

(** The two keys the handlers take out of the arguments. *)
Definition without_reserved (m : gmap string pyval) : gmap string pyval :=
  delete "timeout" (delete "fetch_execution_logs" m).


(** The call the legacy handler makes for the merged arguments [merged]. *)
Definition legacy_call (self : LegacyHandlers.BaseHandler)
    (instruction : string) (merged : gmap string pyval) : action :=
  LegacyAsyncExecute
    (LegacyHandlers.instance_name (LegacyHandlers.resource self)) instruction
    (if LegacyHandlers.request_as_argument (LegacyHandlers.resource self)
     then <["request" := PyRequest]> (without_reserved merged)
     else without_reserved merged)
    {[ "fetch_execution_logs" :=
         default (PyBool false) (merged !! "fetch_execution_logs") ]}
    (default PyNone (merged !! "timeout")).

(** What the event consumer of the HTTP handler answers in one turn when
    the peer is connected: a message, or [None] after a poll interval in
    which none arrived. *)
Definition arrival (o : option string) : HttpHandlers.poll :=
  {| HttpHandlers.received := Ok (from_option PyBytes PyNone o);
     HttpHandlers.flushed := Ok tt |}.

(** The frame of a message. *)
Definition frame (self : HttpHandlers.BaseHandler) (m : string) : pyval :=
  PyBytes (HttpHandlers.data_header self +:+ m +:+ LF +:+ LF).

(** What the HTTP handler does in such a turn. *)
Definition relayed (self : HttpHandlers.BaseHandler) (o : option string)
  : list action :=
  match o with
  | Some m => [Write (frame self m); Flush]
  | None => [Flush]
  end.

(** The same answers for the legacy consumer. *)
Definition legacy_arrival (o : option string) : LegacyHandlers.poll :=
  {| LegacyHandlers.received := Ok (from_option PyBytes PyNone o);
     LegacyHandlers.flushed := Ok tt |}.

(** [loads(dumps(value))] on the JSON serializer. *)
Definition round_trip (lib : Serializers.backend)
    (fmt : exn -> Serializers.pyobj)
    (registry : gmap Serializers.pyref Serializers.replacement)
    (fuel : nat) (value : Serializers.pyobj) : result pyval :=
  Serializers.dumps lib fmt registry fuel value
  ≫= fun b => Serializers.loads lib (Serializers.Bytes b).

End Notions.

(** ** Further notions, for the properties of the rest of the code *)

Module Coverage.
Import Py Tornado Notions.

Definition is_finish (a : action) : bool :=
  match a with Finish => true | _ => false end.

(** An entry that leaves the response as it is: a call to the broker or
    a router update. *)
Definition leaves_response (a : action) : bool :=
  match a with
  | AsyncExecute _ _ _ _ _ _ | LegacyAsyncExecute _ _ _ _ _
  | UpdateRouter _ | ScheduleUpdateRouter _ | ConsumerExit => true
  | _ => false
  end.

Definition is_set_status (a : action) : bool :=
  match a with SetStatus _ _ => true | _ => false end.

(** What can happen in one turn of the event loop while the peer stays
    connected: a message or a silent interval ([Arrived]), a value that is
    truthy but not [bytes] ([Garbled]), or an exception raised by
    [receive] ([Failed]). *)
Inductive turn : Type :=
| Arrived (o : option string)
| Garbled (v : pyval)
| Failed (ex : exn).

Definition turn_poll (e : turn) : HttpHandlers.poll :=
  match e with
  | Arrived o => arrival o
  | Garbled v =>
      {| HttpHandlers.received := Ok v; HttpHandlers.flushed := Ok tt |}
  | Failed ex =>
      {| HttpHandlers.received := Raise ex; HttpHandlers.flushed := Ok tt |}
  end.

(** The exception the handler sees in a turn, if any. *)
Definition turn_exception (e : turn) : option exn :=
  match e with
  | Arrived _ => None
  | Garbled _ => Some (mk_exn TypeError "%b requires a bytes-like object")
  | Failed ex => Some ex
  end.

(** A turn the loop survives: a message that is not empty, a silent
    interval, or an exception other than [StreamClosedError] whose
    description the serializer can write. *)
Definition survivable (self : HttpHandlers.BaseHandler) (e : turn) : Prop :=
  match e with
  | Arrived o => o <> Some EmptyString
  | Garbled v => truthy v = true /\ forall b, v <> PyBytes b
  | Failed ex =>
      isinstance_StreamClosedError ex = false
      /\ isinstance_Exception ex = true
  end
  /\ forall ex, turn_exception e = Some ex ->
       exists b, dumps (HttpHandlers.serializer self)
                   (PyDict {[ "exception" :=
                                HttpHandlers.format_exception_as_json self ex ]})
                 = Ok b.

(** What is written for a turn: the frame of the message, or the frame of
    the description of the exception. *)
Definition turn_frames (self : HttpHandlers.BaseHandler) (e : turn)
  : list pyval :=
  match e with
  | Arrived (Some m) => [frame self m]
  | Arrived None => []
  | _ =>
      match turn_exception e with
      | Some ex =>
          match HttpHandlers.exception_frame self ex with
          | Ok f => [PyBytes f]
          | Raise _ => []
          end
      | None => []
      end
  end.

(** What the legacy event loop does in a turn with a message or without
    one. *)
Definition legacy_relayed (o : option string) : list action :=
  match o with
  | Some m => [Write (PyBytes ("data: " +:+ m +:+ LF +:+ LF)); Flush]
  | None => []
  end.

(** The objects for which [JSONSerializer.default] gets as far as the
    look-up in [_type_replacements]: those that have no [json] attribute
    and are of none of the classes it tests for before. *)
Definition consults_registry (obj : Serializers.pyobj) : bool :=
  match obj with
  | Serializers.ONone | Serializers.OBool _ | Serializers.OInt _
  | Serializers.OFloat _ | Serializers.OStr _ | Serializers.OList _
  | Serializers.ODict _ | Serializers.OBytes _ | Serializers.OInstance _ _ =>
      true
  | _ => false
  end.

(** Plain JSON data nested less than [fuel] deep: [None], booleans,
    numbers, strings, and lists and dictionaries of plain data. *)
Fixpoint plain (fuel : nat) (obj : Serializers.pyobj) : bool :=
  match fuel with
  | O => false
  | S fuel' =>
      match obj with
      | Serializers.ONone | Serializers.OBool _ | Serializers.OInt _
      | Serializers.OFloat _ | Serializers.OStr _ => true
      | Serializers.OList items => forallb (plain fuel') items
      | Serializers.ODict items => forallb (fun kv => plain fuel' kv.2) items
      | _ => false
      end
  end.

End Coverage.

(** ** hololinked/core/logger.py *)

Module Logger.
Import Py.

(** [logging.INFO], [logging.WARN], [logging.ERROR] and
    [logging.CRITICAL]. *)
Definition INFO : Z := 20.
Definition WARN : Z := 30.
Definition ERROR : Z := 40.
Definition CRITICAL : Z := 50.

(** The dictionary both handlers store for a record. *)
Record entry : Type := {
  level : string;
  timestamp : string;
  thread_id : Z;
  message : pyval;
}.

(** A [logging.LogRecord] as [emit] reads it.  [format_error] is the
    exception [self.format(record)] raises, when it raises; [created] is
    what [datetime.datetime.fromtimestamp(record.created).strftime(...)]
    gives: the text of the time stamp, or the exception it raises. *)
Record LogRecord : Type := {
  levelname : string;
  levelno : Z;
  created : result string;
  msg : pyval;
  format_error : option exn;
}.

(** The first statements of both [emit] methods: [self.format(record)]
    and the dictionary built from the record; [ident] is
    [threading.get_ident()]. *)
Definition info_of (ident : Z) (record : LogRecord) : result entry :=
  match format_error record with
  | Some ex => Raise ex
  | None =>
      stamp ← created record;
      Ok {| level := levelname record;
            timestamp := stamp;
            thread_id := ident;
            message := msg record |}
  end.

(** *** [ListHandler]

    The handler keeps the list object it was given, so the lists live in a
    store [h], a list of lists: [h !! l] is the content of the list at
    address [l], and a new list is put at the end of the store. *)

Record ListHandler : Type := { log_list : nat }.

(** [ListHandler.__init__]: [[] if not log_list else log_list].  [None]
    and an empty list are falsy, and a new list is made for them. *)
Definition ListHandler_init (given : option nat) (h : list (list entry))
  : ListHandler * list (list entry) :=
  match given with
  | Some l =>
      match h !! l with
      | Some (_ :: _) => ({| log_list := l |}, h)
      | _ => ({| log_list := length h |}, h ++ [[]])
      end
  | None => ({| log_list := length h |}, h ++ [[]])
  end.

(** [ListHandler.emit]: [self.log_list.insert(0, {...})]. *)
Definition ListHandler_emit (self : ListHandler) (ident : Z)
    (record : LogRecord) (h : list (list entry))
  : result (list (list entry)) :=
  info ← info_of ident record;
  Ok (alter (cons info) (log_list self) h).

(** *** [RemoteAccessHandler] *)

(** [collections.deque(maxlen=n)] for an [int] [n], and [appendleft]: when
    the deque is full the entry at the right end is dropped. *)
Record deque : Type := { maxlen : nat; items : list entry }.

Definition deque_new (n : Z) : result deque :=
  if n <? 0 then Raise (mk_exn ValueError "maxlen must be non-negative")
  else Ok {| maxlen := Z.to_nat n; items := [] |}.

Definition appendleft (x : entry) (d : deque) : deque :=
  {| maxlen := maxlen d; items := take (maxlen d) (x :: items d) |}.

(** The attributes of the handler the methods below read and write.
    [_events_thread] is the thread object, if any; [stream_interval] is a
    [Number] property whose setter is not part of this file and is left
    out. *)
Record RemoteAccessHandler : Type := {
  _maxlen : Z;
  _debug_logs : deque;
  _info_logs : deque;
  _warn_logs : deque;
  _error_logs : deque;
  _critical_logs : deque;
  _execution_logs : deque;
  diff_logs : list entry;
  _push_events : bool;
  _events_thread : option Z;
}.

Definition with_maxlen (v : Z) (s : RemoteAccessHandler) :=
  {| _maxlen := v; _debug_logs := _debug_logs s; _info_logs := _info_logs s;
     _warn_logs := _warn_logs s; _error_logs := _error_logs s;
     _critical_logs := _critical_logs s; _execution_logs := _execution_logs s;
     diff_logs := diff_logs s; _push_events := _push_events s;
     _events_thread := _events_thread s |}.

Definition with_debug_logs (d : deque) (s : RemoteAccessHandler) :=
  {| _maxlen := _maxlen s; _debug_logs := d; _info_logs := _info_logs s;
     _warn_logs := _warn_logs s; _error_logs := _error_logs s;
     _critical_logs := _critical_logs s; _execution_logs := _execution_logs s;
     diff_logs := diff_logs s; _push_events := _push_events s;
     _events_thread := _events_thread s |}.

Definition with_info_logs (d : deque) (s : RemoteAccessHandler) :=
  {| _maxlen := _maxlen s; _debug_logs := _debug_logs s; _info_logs := d;
     _warn_logs := _warn_logs s; _error_logs := _error_logs s;
     _critical_logs := _critical_logs s; _execution_logs := _execution_logs s;
     diff_logs := diff_logs s; _push_events := _push_events s;
     _events_thread := _events_thread s |}.

Definition with_warn_logs (d : deque) (s : RemoteAccessHandler) :=
  {| _maxlen := _maxlen s; _debug_logs := _debug_logs s;
     _info_logs := _info_logs s; _warn_logs := d;
     _error_logs := _error_logs s; _critical_logs := _critical_logs s;
     _execution_logs := _execution_logs s; diff_logs := diff_logs s;
     _push_events := _push_events s; _events_thread := _events_thread s |}.

Definition with_error_logs (d : deque) (s : RemoteAccessHandler) :=
  {| _maxlen := _maxlen s; _debug_logs := _debug_logs s;
     _info_logs := _info_logs s; _warn_logs := _warn_logs s;
     _error_logs := d; _critical_logs := _critical_logs s;
     _execution_logs := _execution_logs s; diff_logs := diff_logs s;
     _push_events := _push_events s; _events_thread := _events_thread s |}.

Definition with_critical_logs (d : deque) (s : RemoteAccessHandler) :=
  {| _maxlen := _maxlen s; _debug_logs := _debug_logs s;
     _info_logs := _info_logs s; _warn_logs := _warn_logs s;
     _error_logs := _error_logs s; _critical_logs := d;
     _execution_logs := _execution_logs s; diff_logs := diff_logs s;
     _push_events := _push_events s; _events_thread := _events_thread s |}.

Definition with_execution_logs (d : deque) (s : RemoteAccessHandler) :=
  {| _maxlen := _maxlen s; _debug_logs := _debug_logs s;
     _info_logs := _info_logs s; _warn_logs := _warn_logs s;
     _error_logs := _error_logs s; _critical_logs := _critical_logs s;
     _execution_logs := d; diff_logs := diff_logs s;
     _push_events := _push_events s; _events_thread := _events_thread s |}.

Definition with_diff_logs (l : list entry) (s : RemoteAccessHandler) :=
  {| _maxlen := _maxlen s; _debug_logs := _debug_logs s;
     _info_logs := _info_logs s; _warn_logs := _warn_logs s;
     _error_logs := _error_logs s; _critical_logs := _critical_logs s;
     _execution_logs := _execution_logs s; diff_logs := l;
     _push_events := _push_events s; _events_thread := _events_thread s |}.

Definition with_push_events (b : bool) (s : RemoteAccessHandler) :=
  {| _maxlen := _maxlen s; _debug_logs := _debug_logs s;
     _info_logs := _info_logs s; _warn_logs := _warn_logs s;
     _error_logs := _error_logs s; _critical_logs := _critical_logs s;
     _execution_logs := _execution_logs s; diff_logs := diff_logs s;
     _push_events := b; _events_thread := _events_thread s |}.

Definition with_events_thread (t : option Z) (s : RemoteAccessHandler) :=
  {| _maxlen := _maxlen s; _debug_logs := _debug_logs s;
     _info_logs := _info_logs s; _warn_logs := _warn_logs s;
     _error_logs := _error_logs s; _critical_logs := _critical_logs s;
     _execution_logs := _execution_logs s; diff_logs := diff_logs s;
     _push_events := _push_events s; _events_thread := t |}.

(** [self.<attribute> = deque(maxlen=n)], followed by the rest of the
    method when the constructor did not raise. *)
Definition assign_deque (n : Z)
    (store : deque -> RemoteAccessHandler -> RemoteAccessHandler)
    (rest : RemoteAccessHandler -> RemoteAccessHandler * result unit)
    (self : RemoteAccessHandler) : RemoteAccessHandler * result unit :=
  match deque_new n with
  | Ok d => rest (store d self)
  | Raise e => (self, Raise e)
  end.

(** [RemoteAccessHandler.set_maxlen], for an [int] [value] and [int]
    lengths in [kwargs]: the handler after the call and how the call ends.
    [value/5] is a division of floats; for [value] below [2^53] in
    absolute value [int(value/5)] is the quotient rounded towards zero. *)
Definition set_maxlen (value : Z) (kwargs : gmap string Z)
    (self : RemoteAccessHandler) : RemoteAccessHandler * result unit :=
  let len key := default (Z.quot value 5) (kwargs !! key) in
  (assign_deque (len "len_debug") with_debug_logs
  (assign_deque (len "len_info") with_info_logs
  (assign_deque (len "len_warn") with_warn_logs
  (assign_deque (len "len_error") with_error_logs
  (assign_deque (len "len_critical") with_critical_logs
  (assign_deque value with_execution_logs
  (fun self => (self, Ok tt)))))))) (with_maxlen value self).

(** [RemoteAccessHandler.__init__] after the initialisers of the base
    classes, which are not part of this file.  [stream_interval_error] is
    the exception the setter of [stream_interval] raises, when it raises.
    Every attribute of the record is assigned before the method returns;
    the deques the record starts with are never read. *)
Definition RemoteAccessHandler_init (maxlen : Z) (kwargs : gmap string Z)
    (stream_interval_error : option exn) : result RemoteAccessHandler :=
  let unset := {| maxlen := 0; items := [] |} in
  let self :=
    {| _maxlen := 0; _debug_logs := unset; _info_logs := unset;
       _warn_logs := unset; _error_logs := unset; _critical_logs := unset;
       _execution_logs := unset; diff_logs := []; _push_events := false;
       _events_thread := None |} in
  match set_maxlen maxlen kwargs self with
  | (self, Ok _) =>
      match stream_interval_error with
      | Some ex => Raise ex
      | None =>
          Ok (with_events_thread None
                (with_push_events false (with_diff_logs [] self)))
      end
  | (_, Raise ex) => Raise ex
  end.

(** [RemoteAccessHandler.emit]. *)
Definition emit (self : RemoteAccessHandler) (ident : Z) (record : LogRecord)
  : result RemoteAccessHandler :=
  info ← info_of ident record;
  let n := levelno record in
  let self :=
    if n <? INFO then
      with_debug_logs (appendleft info (_debug_logs self)) self
    else if (INFO <=? n) && (n <? WARN) then
      with_info_logs (appendleft info (_info_logs self)) self
    else if (WARN <=? n) && (n <? ERROR) then
      with_warn_logs (appendleft info (_warn_logs self)) self
    else if (ERROR <=? n) && (n <? CRITICAL) then
      with_error_logs (appendleft info (_error_logs self)) self
    else if CRITICAL <=? n then
      with_critical_logs (appendleft info (_critical_logs self)) self
    else self in
  let self :=
    with_execution_logs (appendleft info (_execution_logs self)) self in
  Ok (if _push_events self
      then with_diff_logs (info :: diff_logs self) self
      else self).

(** What the methods below do besides updating the handler; [OwnerLog] is
    a call to the named method of the owner's logger. *)
Inductive effect : Type :=
| CallSoon
| ThreadStart
| ThreadJoin
| Sleep
| EventPush (logs : list entry)
| OwnerLog (method : string).

(** [RemoteAccessHandler.push_events].  [stream_interval_error] is as in
    [__init__], [loop_error] the exception
    [asyncio.get_event_loop().call_soon(...)] raises, when it raises;
    [thread] is the thread object [threading.Thread(...)] returns. *)
Definition push_events (self : RemoteAccessHandler) (scheduling : string)
    (stream_interval_error loop_error : option exn) (thread : Z)
  : RemoteAccessHandler * list effect * result unit :=
  match stream_interval_error with
  | Some ex => (self, [], Raise ex)
  | None =>
      if String.eqb scheduling "asyncio" then
        match loop_error with
        | Some ex => (self, [], Raise ex)
        | None => (self, [CallSoon], Ok tt)
        end
      else if String.eqb scheduling "threading" then
        match _events_thread self with
        | Some _ =>
            (with_events_thread (Some thread) self, [ThreadStart], Ok tt)
        | None => (self, [], Ok tt)
        end
      else
        (self, [],
         Raise (mk_exn ValueError
           ("scheduling can only be 'threaded' or 'async'. Given value "
            +:+ scheduling)))
  end.

(** [RemoteAccessHandler.stop_events]. *)
Definition stop_events (self : RemoteAccessHandler)
  : RemoteAccessHandler * list effect :=
  let self := with_push_events false self in
  match _events_thread self with
  | Some _ =>
      (with_events_thread None self,
       [ThreadJoin; OwnerLog "debug"])
  | None => (self, [])
  end.

(** One test of the [while] condition of
    [RemoteAccessHandler._async_push_diff_logs], with the turn of the loop
    or the end of the coroutine that follows it; other calls can come
    between two turns, while the coroutine sleeps.  The last component
    tells whether the coroutine goes on. *)
Definition _async_push_diff_logs (self : RemoteAccessHandler)
  : RemoteAccessHandler * list effect * bool :=
  if _push_events self then
    (with_diff_logs [] self, [Sleep; EventPush (diff_logs self)], true)
  else (self, [OwnerLog "info"], false).

(** *** Sequences of calls *)

(** The entries of the records, among those given, whose level number
    satisfies [p] and for which [emit] gets as far as storing them, the
    last one first. *)
Definition stored (p : Z -> bool) (records : list (Z * LogRecord))
  : list entry :=
  rev (omap (fun c => if p (levelno c.2)
                      then match info_of c.1 c.2 with
                           | Ok info => Some info
                           | Raise _ => None
                           end
                      else None) records).

(** [emit] called for each record in turn; a call that raises leaves the
    handler as it was. *)
Definition emit_all (records : list (Z * LogRecord))
    (self : RemoteAccessHandler) : RemoteAccessHandler :=
  fold_left (fun s c => match emit s c.1 c.2 with
                        | Ok s' => s'
                        | Raise _ => s
                        end) records self.

Definition ListHandler_emit_all (self : ListHandler)
    (records : list (Z * LogRecord)) (h : list (list entry))
  : list (list entry) :=
  fold_left (fun h c => match ListHandler_emit self c.1 c.2 h with
                        | Ok h' => h'
                        | Raise _ => h
                        end) records h.

(** A call to the handler from outside, or a turn of the coroutine
    [push_events] schedules. *)
Inductive call : Type :=
| Emit (ident : Z) (record : LogRecord)
| PushEvents (scheduling : string)
    (stream_interval_error loop_error : option exn) (thread : Z)
| StopEvents
| SetMaxlen (value : Z) (kwargs : gmap string Z)
| CoroutineTurn.

Definition step (c : call) (self : RemoteAccessHandler)
  : RemoteAccessHandler * list effect :=
  match c with
  | Emit ident record =>
      match emit self ident record with
      | Ok self' => (self', [])
      | Raise _ => (self, [])
      end
  | PushEvents scheduling e1 e2 thread =>
      (push_events self scheduling e1 e2 thread).1
  | StopEvents => stop_events self
  | SetMaxlen value kwargs => ((set_maxlen value kwargs self).1, [])
  | CoroutineTurn => (_async_push_diff_logs self).1
  end.

Fixpoint run (calls : list call) (self : RemoteAccessHandler)
  : RemoteAccessHandler * list effect :=
  match calls with
  | [] => (self, [])
  | c :: calls' =>
      let '(self1, t1) := step c self in
      let '(self2, t2) := run calls' self1 in
      (self2, t1 ++ t2)
  end.

Definition starts_or_pushes (e : effect) : bool :=
  match e with
  | ThreadStart | EventPush _ => true
  | _ => false
  end.

End Logger.

(** ** [ThingsHandler] and [StopHandler] of
       hololinked/protocols/http/server/handlers.py *)

Module AdminHandlers.
Import Py Tornado HttpHandlers.

(** What these handlers do: an entry of the response trace, the call
    [zmq_client_pool.create_new], or the server's [stop] handed to
    [call_soon]. *)
Inductive call : Type :=
| Respond (a : action)
| CreateNew (server_instance_name : string)
| CallSoonStop.

Definition responses (t : list call) : list action :=
  omap (fun c => match c with Respond a => Some a | _ => None end) t.

(** [BaseHandler.set_headers], which [ThingsHandler] inherits. *)
Definition set_headers : exn :=
  mk_exn (OtherException "NotImplementedError")
    "implement set headers in child class to automatically call it while directing the request to Thing".

(** The [try] block of [ThingsHandler.post].  [create_new] is the
    exception the awaited [create_new] raises, when it raises,
    [pool_lookup] the one [self.zmq_client_pool[instance_name]] raises and
    [update_router] the one the awaited [update_router_with_thing]
    raises. *)
Definition things_try (create_new pool_lookup update_router : option exn)
  : list call * option exn :=
  match create_new with
  | Some ex => ([CreateNew EmptyString], Some ex)
  | None =>
      match pool_lookup with
      | Some ex => ([CreateNew EmptyString], Some ex)
      | None =>
          match update_router with
          | Some ex =>
              ([CreateNew EmptyString; Respond (UpdateRouter EmptyString)],
               Some ex)
          | None =>
              ([CreateNew EmptyString; Respond (UpdateRouter EmptyString);
                Respond (SetStatus 204 (Some "ok"))], None)
          end
      end
  end.

(** [ThingsHandler.post]. *)
Definition things_post (self : BaseHandler)
    (create_new pool_lookup update_router : option exn)
  : list call * completion :=
  let '(t, granted) := has_access_control self in
  if negb granted then
    (map Respond t
     ++ [Respond (SetStatus 401 (Some "forbidden")); Respond Finish],
     Returned)
  else
    let '(tried, raised) := things_try create_new pool_lookup update_router in
    match raised with
    | Some ex =>
        if isinstance_Exception ex then
          (map Respond t ++ tried
           ++ [Respond (SetStatus 500 (Some (exn_message ex)))],
           Propagated set_headers)
        else (map Respond t ++ tried, Propagated ex)
    | None => (map Respond t ++ tried, Propagated set_headers)
    end.

(** [ThingsHandler.get]. *)
Definition things_get : list call :=
  [Respond (SetStatus 404 None); Respond Finish].

(** [StopHandler.post]; [loop_error] is the exception
    [asyncio.get_event_loop().call_soon(...)] raises, when it raises. *)
Definition stop_post (self : BaseHandler) (loop_error : option exn)
  : list call * completion :=
  let '(t, granted) := has_access_control self in
  if negb granted then
    (map Respond t
     ++ [Respond (SetStatus 401 (Some "forbidden")); Respond Finish],
     Returned)
  else
    match loop_error with
    | None =>
        (map Respond t
         ++ [CallSoonStop; Respond (SetStatus 204 (Some "ok"));
             Respond (SetHeader "Access-Control-Allow-Credentials" "true");
             Respond Finish],
         Returned)
    | Some ex =>
        if isinstance_Exception ex then
          (map Respond t
           ++ [Respond (SetStatus 500 (Some (exn_message ex)));
               Respond Finish],
           Returned)
        else (map Respond t, Propagated ex)
    end.

(** Whether the request passes the test of the allow-list. *)
Definition granted (self : BaseHandler) : bool := (has_access_control self).2.

End AdminHandlers.

(** ** Sample log records *)

Module LogSamples.
Import Py Logger.

Definition record (name : string) (number : Z) (text : string) : LogRecord :=
  {| levelname := name; levelno := number;
     created := Ok "2024-01-01T00:00:00.000000";
     msg := PyStr text; format_error := None |}.

(** A record whose message does not fit its arguments:
    [self.format(record)] raises. *)
Definition misformatted : LogRecord :=
  {| levelname := "INFO"; levelno := 20;
     created := Ok "2024-01-01T00:00:00.000000";
     msg := PyStr "%d items"; 
     format_error :=
       Some (mk_exn TypeError "%d format: a real number is required") |}.

Definition records : list (Z * LogRecord) :=
  [(1, record "DEBUG" 10 "a"); (1, record "DEBUG" 10 "b");
   (1, misformatted); (2, record "ERROR" 40 "c");
   (1, record "DEBUG" 10 "d")].

(** A handler whose attributes are all about to be assigned. *)
Definition unset : RemoteAccessHandler :=
  let d := {| maxlen := 0; items := [] |} in
  {| _maxlen := 0; _debug_logs := d; _info_logs := d; _warn_logs := d;
     _error_logs := d; _critical_logs := d; _execution_logs := d;
     diff_logs := []; _push_events := false; _events_thread := None |}.

(** The handler [prepare_object_logger] makes:
    [RemoteAccessHandler(id='logger', maxlen=500, ...)]. *)
Definition handler : RemoteAccessHandler :=
  with_events_thread None
    (with_push_events false
       (with_diff_logs [] (set_maxlen 500 ∅ unset).1)).

End LogSamples.

(** * Properties *)

Import Py Tornado Notions.

(** ** Reading a trace *)


Lemma written_app t1 t2 : written (t1 ++ t2) = written t1 ++ written t2.
Proof. unfold written. apply omap_app. Qed.

Lemma broker_calls_app t1 t2 :
  broker_calls (t1 ++ t2) = broker_calls t1 ++ broker_calls t2.
Proof. apply List.filter_app. Qed.

Lemma response_status_app t1 t2 :
  response_status (t1 ++ t2)
  = fold_left (fun s a => match a with SetStatus c _ => c | _ => s end) t2
      (response_status t1).
Proof. unfold response_status. apply fold_left_app. Qed.

(** ** The [try] block of [RPCHandler.handle_through_thing] and the retry *)

Section Retry.
Import HttpHandlers.


Lemma try_block_raises self : exists ex, try_block self = Raise ex.
Proof.
  unfold try_block. destruct (get_execution_parameters self); cbn; eauto.
Qed.

Lemma write_reply_no_update self reply :
  List.filter is_update_router (write_reply self reply) = [].
Proof. unfold write_reply, set_headers. by destruct (truthy reply). Qed.

Lemma write_reply_no_broker_call self reply :
  broker_calls (write_reply self reply) = [].
Proof. unfold write_reply, set_headers. by destruct (truthy reply). Qed.

(** What [handle_through_thing] does when the [try] block ends with an
    exception that is no [ConnectionError]. *)
Lemma handle_through_thing_other self operation limit ex :
  try_block self = Raise ex ->
  isinstance_ConnectionError ex = false ->
  isinstance_Exception ex = true ->
  handle_through_thing self operation (S limit)
  = match dumps (serializer self)
            (PyDict {[ "exception" := format_exception_as_json self ex ]}) with
    | Ok reply =>
        ([SetStatus 500 (Some "error while scheduling RPC call")]
         ++ write_reply self (PyBytes reply), Returned)
    | Raise e' =>
        ([SetStatus 500 (Some "error while scheduling RPC call")],
         Propagated e')
    end.
Proof.
  intros Htry Hce Hex. cbn [handle_through_thing]. rewrite Htry.
  assert (Hab : isinstance_ConnectionAbortedError ex = false).
  { unfold isinstance_ConnectionAbortedError, isinstance_ConnectionError in *.
    by destruct (exn_class ex). }
  rewrite Hab, Hce, Hex. reflexivity.
Qed.



End Retry.

(** ** Origin allow-list ([BaseHandler.has_access_control]) and verb gating
    ([PropertyHandler.is_method_allowed]) *)

Section AccessControl.
Import HttpHandlers.

Lemma py_in_true x l : py_in x l = true <-> x ∈ l.
Proof. unfold py_in. apply bool_decide_eq_true. Qed.

Lemma has_access_control_empty self :
  allowed_clients self = [] ->
  has_access_control self = ([SetHeader "Access-Control-Allow-Origin" "*"], true).
Proof. unfold has_access_control. by intros ->. Qed.

Lemma has_access_control_nonempty self :
  allowed_clients self <> [] ->
  has_access_control self
  = match headers (request self) !! "Origin" with
    | Some origin =>
        if py_in origin (allowed_clients self)
           || py_in (origin +:+ "/") (allowed_clients self)
        then ([SetHeader "Access-Control-Allow-Origin" origin], true)
        else ([], false)
    | None => ([], false)
    end.
Proof.
  unfold has_access_control. intros H.
  destruct (allowed_clients self) as [|c cs]; [done|reflexivity].
Qed.

(** A request that is not granted access gets 401 from every verb method
    of [PropertyHandler], and the broker is not called. *)
Lemma property_verb_unauthorized self method operation limit :
  (has_access_control self).2 = false ->
  exists t,
    property_verb self method operation limit = (t, Returned)
    /\ response_status t = 401
    /\ broker_calls t = [].
Proof.
  intros H. unfold property_verb, is_method_allowed.
  destruct (has_access_control self) as [t granted] eqn:Hac.
  cbn in H. subst granted. cbn.
  exists (t ++ [SetStatus 401 (Some "forbidden")]). split; [reflexivity|].
  unfold response_status, broker_calls.
  rewrite fold_left_app, List.filter_app. cbn. split; [reflexivity|].
  unfold has_access_control in Hac.
  destruct (Nat.eqb _ _); [discriminate|].
  destruct (headers (request self) !! "Origin"); [|by inversion Hac].
  destruct (_ || _); [discriminate|by inversion Hac].
Qed.

(** C4, as the code has it: with an empty allow-list every request is
    granted access and [Access-Control-Allow-Origin: *] is set; with a
    non-empty one a request is granted access exactly when it has an
    [Origin] header whose value, or whose value followed by a slash, is an
    entry of the list, and that value is then echoed; a request that is
    not granted access is answered 401 and nothing reaches the broker. *)
Theorem has_access_control_by_allow_list (self : BaseHandler) :
  (allowed_clients self = [] ->
     has_access_control self
     = ([SetHeader "Access-Control-Allow-Origin" "*"], true))
  /\ (allowed_clients self <> [] ->
      ((has_access_control self).2 = true <->
         exists origin,
           headers (request self) !! "Origin" = Some origin
           /\ (origin ∈ allowed_clients self
               \/ origin +:+ "/" ∈ allowed_clients self))
      /\ (forall origin,
            headers (request self) !! "Origin" = Some origin ->
            (has_access_control self).2 = true ->
            (has_access_control self).1
            = [SetHeader "Access-Control-Allow-Origin" origin]))
  /\ ((has_access_control self).2 = false ->
      forall method operation limit,
        (property_verb self method operation limit).2 = Returned
        /\ response_status (property_verb self method operation limit).1 = 401
        /\ broker_calls (property_verb self method operation limit).1 = []).
Proof.
  split; [apply has_access_control_empty|]. split.
  - intros Hne. rewrite (has_access_control_nonempty _ Hne).
    destruct (headers (request self) !! "Origin") as [origin|] eqn:Ho.
    + destruct (py_in origin (allowed_clients self)) eqn:H1;
        destruct (py_in (origin +:+ "/") (allowed_clients self)) eqn:H2; cbn;
        (split; [split|]);
        try (intros _; exists origin; split; [reflexivity|];
             first [left; by apply py_in_true | right; by apply py_in_true]);
        try (intros; simplify_eq; reflexivity);
        try discriminate.
      * intros (o & [= <-] & [Hin|Hin]); apply py_in_true in Hin; congruence.
    + cbn. split; [split|]; try discriminate.
      intros (o & [=] & _).
  - intros H method operation limit.
    destruct (property_verb_unauthorized self method operation limit H)
      as (t & -> & Hs & Hb).
    done.
Qed.

Lemma origin_listed_with_trailing_slash_is_granted :
  let self := Samples.http_handler ["https://a.example/"]
                (Samples.request_from "https://a.example") in
  (has_access_control self).2 = true
  /\ (has_access_control self).1
     = [SetHeader "Access-Control-Allow-Origin" "https://a.example"].
Proof.
  intros self.
  destruct (has_access_control_by_allow_list self) as (_ & H & _).
  assert (Hne : allowed_clients self <> []) by discriminate.
  destruct (H Hne) as [Hiff Hecho].
  assert (Hgranted : (has_access_control self).2 = true).
  { apply Hiff. exists "https://a.example". split; [reflexivity|].
    right. cbn. apply list_elem_of_here. }
  split; [exact Hgranted|].
  apply Hecho; [reflexivity|exact Hgranted].
Defined.

(** C4 as stated fails on its own example: with the allow-list
    [["https://a.example"]] a request with [Origin: https://a.example/] is
    not granted access (the code appends the slash to the header value, it
    does not strip one from it) and a GET on a property is answered 401. *)
Lemma origin_sent_with_trailing_slash_is_refused :
  let self := Samples.http_handler ["https://a.example"]
                (Samples.request_from "https://a.example/") in
  has_access_control self = ([], false)
  /\ property_get self 1
     = ([SetStatus 401 (Some "forbidden")], Returned).
Proof. split; reflexivity. Qed.

(** The condition of [is_method_allowed] for a request that is granted
    access: which verbs are refused with 405. *)
Lemma is_method_allowed_granted self method :
  (has_access_control self).2 = true ->
  is_method_allowed self method
  = if (String.eqb method "GET" && writeOnly (resource self))
       || (String.eqb method "POST"
           || (String.eqb method "PUT" && readOnly (resource self)))
    then ((has_access_control self).1
          ++ [SetStatus 405 (Some "method not allowed"); Finish], false)
    else ((has_access_control self).1, true).
Proof.
  unfold is_method_allowed. destruct (has_access_control self) as [t g].
  cbn. by intros ->.
Qed.


(** A verb refused by a flag: 405, nothing reaches the broker. *)
Lemma property_verbs_refused self limit :
  (has_access_control self).2 = true ->
  let refused :=
    ((has_access_control self).1
     ++ [SetStatus 405 (Some "method not allowed"); Finish], Returned) in
  (writeOnly (resource self) = true -> property_get self limit = refused)
  /\ (readOnly (resource self) = true -> property_put self limit = refused)
  /\ property_post self limit = refused.
Proof.
  intros Hg. unfold property_get, property_put, property_post, property_verb.
  rewrite !(is_method_allowed_granted _ _ Hg). cbn.
  repeat split; try intros ->; reflexivity.
Qed.



(** C2 on the code: a POST on a property, from a client that is granted
    access, is answered 405 and finished without entering
    [handle_through_thing], also when the property is not [readOnly]; the
    same request sent with PUT passes [is_method_allowed].  The condition
    of [is_method_allowed] reads [POST or (PUT and readOnly)]. *)
Theorem property_post_refused_on_writable_property
    (self : BaseHandler) (limit : nat) :
  (has_access_control self).2 = true ->
  readOnly (resource self) = false ->
  property_post self limit
  = ((has_access_control self).1
     ++ [SetStatus 405 (Some "method not allowed"); Finish], Returned)
  /\ response_status (property_post self limit).1 = 405
  /\ broker_calls (property_post self limit).1 = []
  /\ is_method_allowed self "POST"
     = ((has_access_control self).1
        ++ [SetStatus 405 (Some "method not allowed"); Finish], false)
  /\ is_method_allowed self "PUT" = ((has_access_control self).1, true).
Proof.
  intros Hg Hro.
  destruct (property_verbs_refused self limit Hg) as (_ & _ & Hpost).
  rewrite Hpost. cbn [fst].
  split; [reflexivity|].
  rewrite response_status_app, broker_calls_app.
  split; [reflexivity|]. split.
  { cbn. unfold has_access_control.
    destruct (Nat.eqb _ _); [reflexivity|].
    destruct (headers (request self) !! "Origin"); [|reflexivity].
    destruct (_ || _); reflexivity. }
  rewrite !(is_method_allowed_granted _ _ Hg), Hro. split; reflexivity.
Qed.

Lemma property_post_refused_example :
  property_post (Samples.http_handler [] Samples.plain_request) 1
  = ([SetHeader "Access-Control-Allow-Origin" "*";
      SetStatus 405 (Some "method not allowed"); Finish],
     Returned).
Proof.
  exact (proj1 (property_post_refused_on_writable_property
                  (Samples.http_handler [] Samples.plain_request) 1
                  eq_refl eq_refl)).
Defined.

End AccessControl.

(** ** Assembling the arguments
    ([BaseHandler.get_execution_parameters], [BaseHandler.prepare_arguments]) *)

Section Arguments.

Lemma mapM_loads_ok (s : BaseSerializer) raws vs :
  Forall2 (fun raw x => loads s raw = Ok x) raws vs ->
  mapM (loads s) raws = Ok vs.
Proof.
  induction 1 as [|raw x raws vs Hx _ IH]; [reflexivity|].
  cbn. rewrite Hx. cbn. rewrite IH. reflexivity.
Qed.

Lemma query_value_deserializes s value v :
  deserializes s value v -> HttpHandlers.query_value s value = Ok v.
Proof.
  unfold deserializes, HttpHandlers.query_value.
  destruct value as [|raw [|raw' raws]].
  - intros (vs & H & ->). by rewrite (mapM_loads_ok _ _ _ H).
  - done.
  - intros (vs & H & ->). by rewrite (mapM_loads_ok _ _ _ H).
Qed.

Lemma merge_query_arguments_ok s items q d :
  Forall2 (fun item kv => kv.1 = item.1 /\ deserializes s item.2 kv.2) items q ->
  HttpHandlers.merge_query_arguments s items d
  = Ok (foldl (fun m kv => <[kv.1 := kv.2]> m) d q).
Proof.
  intros H. revert d.
  induction H as [|[key value] [k v] items q [Hk Hv] _ IH]; intros d;
    [reflexivity|].
  cbn in *. subst k. rewrite (query_value_deserializes _ _ _ Hv). cbn.
  apply IH.
Qed.

(** Assigning the query parameters one after the other leaves the map in
    which each of them overrides the body's entry of the same name. *)
Lemma foldl_insert_union (q : list (string * pyval)) (d : gmap string pyval) :
  NoDup q.*1 ->
  foldl (fun m kv => <[kv.1 := kv.2]> m) d q = list_to_map q ∪ d.
Proof.
  revert d. induction q as [|[k v] q IH]; intros d Hnd.
  - cbn. by rewrite (left_id_L ∅ (∪)).
  - cbn in *. apply NoDup_cons in Hnd as [Hk Hnd].
    rewrite (IH _ Hnd).
    rewrite <- insert_union_l.
    symmetry. apply insert_union_r.
    by apply not_elem_of_list_to_map_1.
Qed.

(** What [get_execution_parameters] returns for a request whose body is a
    JSON object and whose query parameters deserialize, when the value
    given as timeout (if any) is [None] or a number. *)
Lemma get_execution_parameters_of_object self d q :
  request_decodes (HttpHandlers.serializer self) (HttpHandlers.request self) d q ->
  let merged := list_to_map q ∪ d in
  let timeout := default PyNone (merged !! "timeout") in
  is_None timeout || is_number timeout = true ->
  HttpHandlers.get_execution_parameters self
  = Ok (PyDict (if HttpHandlers.request_as_argument (HttpHandlers.resource self)
                then <["request" := PyRequest]> (without_reserved merged)
                else without_reserved merged),
        {[ "fetch_execution_logs" :=
             default (PyBool false) (merged !! "fetch_execution_logs") ]},
        if negative_number timeout then PyNone else timeout).
Proof.
  intros (Hbody & Hquery & Hnd) merged timeout Hnum.
  unfold HttpHandlers.get_execution_parameters.
  assert (Hmerge :
    (if Nat.leb 1 (length (query_arguments (HttpHandlers.request self)))
     then HttpHandlers.merge_query_arguments (HttpHandlers.serializer self)
            (query_arguments (HttpHandlers.request self)) d
     else Ok d) = Ok merged).
  { unfold merged. rewrite <- (foldl_insert_union _ _ Hnd).
    destruct (Nat.leb _ _) eqn:Hlen.
    - by apply merge_query_arguments_ok.
    - destruct Hquery; [reflexivity|discriminate]. }
  assert (Hparsed :
    (if Nat.ltb 0 (String.length (body (HttpHandlers.request self)))
     then loads (HttpHandlers.serializer self) (body (HttpHandlers.request self))
     else Ok (PyDict ∅)) = Ok (PyDict d)).
  { destruct (Nat.ltb _ _); [exact Hbody|by subst d]. }
  rewrite Hparsed. cbn [mbind result_bind]. rewrite Hmerge. cbn [mbind result_bind].
  unfold dict_pop. cbn [fst snd].
  rewrite (lookup_delete_ne merged) by discriminate.
  fold timeout. unfold negative_number.
  destruct timeout; cbn in *; try discriminate; try reflexivity.
  - by destruct (z <? 0).
  - by destruct (Qle_bool 0 q0).
Qed.

(** C3 on [get_execution_parameters] (X1): for a request whose body is a
    JSON object [d] and whose query parameters deserialize to [q] (one
    value: its deserialization; several: the list of theirs), the
    arguments returned are [d] overridden by [q],
    without the keys [timeout] and [fetch_execution_logs] whichever of the
    two supplied them (and with the request object under [request] when
    the resource asks for it). *)
Theorem get_execution_parameters_merges_body_and_query
    (self : HttpHandlers.BaseHandler)
    (d : gmap string pyval) (q : list (string * pyval)) :
  request_decodes (HttpHandlers.serializer self) (HttpHandlers.request self) d q ->
  is_None (default PyNone ((list_to_map q ∪ d) !! "timeout"))
  || is_number (default PyNone ((list_to_map q ∪ d) !! "timeout")) = true ->
  exists (arguments context : gmap string pyval) (timeout : pyval),
    HttpHandlers.get_execution_parameters self
    = Ok (PyDict arguments, context, timeout)
    /\ arguments
       = (if HttpHandlers.request_as_argument (HttpHandlers.resource self)
          then <["request" := PyRequest]>
                 (delete "timeout" (delete "fetch_execution_logs" (list_to_map q ∪ d)))
          else delete "timeout" (delete "fetch_execution_logs" (list_to_map q ∪ d)))
    /\ (HttpHandlers.request_as_argument (HttpHandlers.resource self) = false ->
        arguments !! "timeout" = None
        /\ arguments !! "fetch_execution_logs" = None
        /\ forall k, k <> "timeout" -> k <> "fetch_execution_logs" ->
             arguments !! k
             = match (list_to_map q : gmap string pyval) !! k with
               | Some v => Some v
               | None => d !! k
               end).
Proof.
  intros Hreq Hnum.
  rewrite (get_execution_parameters_of_object self d q Hreq Hnum).
  eexists _, _, _. split; [reflexivity|]. split; [reflexivity|].
  intros ->. unfold without_reserved.
  split; [apply lookup_delete_eq|].
  split; [rewrite lookup_delete_ne by discriminate; apply lookup_delete_eq|].
  intros k Hk1 Hk2.
  rewrite !lookup_delete_ne by done.
  rewrite lookup_union. by destruct (_ !! k), (d !! k).
Qed.

(** The example of C3: body [{"a":1}] with [?b=2&c=3&c=4] gives
    [{"a":1,"b":2,"c":[3,4]}]. *)
Lemma get_execution_parameters_merge_example :
  exists (arguments context : gmap string pyval) (timeout : pyval),
    HttpHandlers.get_execution_parameters
      (Samples.http_handler [] Samples.merge_request)
    = Ok (PyDict arguments, context, timeout)
    /\ arguments
       = {[ "a" := PyInt 1; "b" := PyInt 2; "c" := PyList [PyInt 3; PyInt 4] ]}.
Proof.
  destruct (get_execution_parameters_merges_body_and_query
              (Samples.http_handler [] Samples.merge_request)
              {[ "a" := PyInt 1 ]}
              [("b", PyInt 2); ("c", PyList [PyInt 3; PyInt 4])])
    as (arguments & context & timeout & Hrun & Hargs & _).
  - split; [reflexivity|]. split.
    + repeat constructor.
      exists [PyInt 3; PyInt 4]. split; [|reflexivity].
      repeat constructor.
    + cbn. apply NoDup_cons. split; [by intros [=]%list_elem_of_singleton|apply NoDup_singleton].
  - reflexivity.
  - exists arguments, context, timeout. split; [exact Hrun|].
    rewrite Hargs. cbn. apply map_eq. intros k.
    vm_compute. reflexivity.
Defined.

(** C7 on [get_execution_parameters] (X2): the key [timeout] is never among
    the arguments returned, and a timeout given as a negative number
    (by the body or by the query string) is returned as [None]; any other
    timeout is returned as given. *)
Theorem get_execution_parameters_negative_timeout_is_None
    (self : HttpHandlers.BaseHandler)
    (d : gmap string pyval) (q : list (string * pyval)) :
  request_decodes (HttpHandlers.serializer self) (HttpHandlers.request self) d q ->
  let given := default PyNone ((list_to_map q ∪ d) !! "timeout") in
  is_None given || is_number given = true ->
  exists (arguments context : gmap string pyval) (timeout : pyval),
    HttpHandlers.get_execution_parameters self
    = Ok (PyDict arguments, context, timeout)
    /\ arguments !! "timeout" = None
    /\ (negative_number given = true -> timeout = PyNone)
    /\ (negative_number given = false -> timeout = given)
    /\ negative_number timeout = false.
Proof.
  intros Hreq given Hnum.
  rewrite (get_execution_parameters_of_object self d q Hreq Hnum).
  eexists _, _, _. split; [reflexivity|]. fold given. split.
  - unfold without_reserved.
    destruct (HttpHandlers.request_as_argument _).
    + rewrite lookup_insert_ne by discriminate. apply lookup_delete_eq.
    + apply lookup_delete_eq.
  - destruct (negative_number given) eqn:Hneg; repeat split; done.
Qed.

Lemma get_execution_parameters_negative_timeout_example :
  exists (arguments context : gmap string pyval) (timeout : pyval),
    HttpHandlers.get_execution_parameters
      (Samples.http_handler [] Samples.negative_timeout_request)
    = Ok (PyDict arguments, context, timeout)
    /\ arguments !! "timeout" = None
    /\ timeout = PyNone.
Proof.
  destruct (get_execution_parameters_negative_timeout_is_None
              (Samples.http_handler [] Samples.negative_timeout_request)
              ∅ [("timeout", PyInt (-5))])
    as (arguments & context & timeout & Hrun & Hkey & Hneg & _).
  - split; [reflexivity|]. split.
    + repeat constructor.
    + cbn. apply NoDup_singleton.
  - reflexivity.
  - exists arguments, context, timeout.
    split; [exact Hrun|]. split; [exact Hkey|].
    apply Hneg. reflexivity.
Defined.

Lemma legacy_merge_query_arguments_eq s items d :
  LegacyHandlers.merge_query_arguments s items d
  = HttpHandlers.merge_query_arguments s items d.
Proof.
  revert d. induction items as [|[key value] items IH]; intros d; [reflexivity|].
  cbn [LegacyHandlers.merge_query_arguments HttpHandlers.merge_query_arguments].
  change (LegacyHandlers.query_value s value)
    with (HttpHandlers.query_value s value).
  destruct (HttpHandlers.query_value s value); cbn; [apply IH|reflexivity].
Qed.

(** The legacy [prepare_arguments] merges the other way round: the query
    parameters are stored first and the body's object is merged in after
    them, so on a shared key the body wins. *)
Lemma legacy_query_arguments_decoded self q :
  Forall2 (fun item kv =>
             kv.1 = item.1
             /\ deserializes (LegacyHandlers.json_serializer self) item.2 kv.2)
    (query_arguments (LegacyHandlers.request self)) q ->
  NoDup q.*1 ->
  (if Nat.leb 1 (length (query_arguments (LegacyHandlers.request self)))
   then LegacyHandlers.merge_query_arguments (LegacyHandlers.json_serializer self)
          (query_arguments (LegacyHandlers.request self)) ∅
   else Ok ∅) = Ok (list_to_map q).
Proof.
  intros Hquery Hnd.
  rewrite <- (right_id_L ∅ (∪) (list_to_map q)).
  rewrite <- (foldl_insert_union _ _ Hnd).
  destruct (Nat.leb _ _) eqn:Hlen.
  - rewrite legacy_merge_query_arguments_eq. by apply merge_query_arguments_ok.
  - destruct Hquery; [reflexivity|discriminate].
Qed.

Lemma prepare_arguments_of_object self d q :
  request_decodes (LegacyHandlers.json_serializer self)
    (LegacyHandlers.request self) d q ->
  LegacyHandlers.prepare_arguments self = Some (Ok (d ∪ list_to_map q)).
Proof.
  intros (Hbody & Hquery & Hnd). unfold LegacyHandlers.prepare_arguments.
  rewrite (legacy_query_arguments_decoded _ _ Hquery Hnd).
  destruct (Nat.ltb _ _).
  - rewrite Hbody. reflexivity.
  - subst d. by rewrite (left_id_L ∅ (∪)).
Qed.

Lemma remote_object_try_of_object self instruction outcome merged :
  LegacyHandlers.remote_object_try self instruction (Ok merged) outcome
  = match outcome with
    | Ok reply =>
        (legacy_call self instruction merged
           :: LegacyHandlers.set_custom_default_headers, Ok reply)
    | Raise e => ([legacy_call self instruction merged], Raise e)
    end.
Proof.
  unfold LegacyHandlers.remote_object_try.
  unfold dict_pop, legacy_call, without_reserved. cbn [fst snd].
  rewrite (lookup_delete_ne merged) by discriminate.
  reflexivity.
Qed.

(** C3 on the two handlers, for body [{"a":1}] with [?a=2]: the HTTP
    handler returns [{"a":2}], the legacy one prepares [{"a":1}]. *)
Lemma legacy_prepare_arguments_prefers_body :
  HttpHandlers.get_execution_parameters
    (Samples.http_handler [] Samples.clash_request)
  = Ok (PyDict {[ "a" := PyInt 2 ]},
        {[ "fetch_execution_logs" := PyBool false ]}, PyNone)
  /\ LegacyHandlers.prepare_arguments
       (Samples.legacy_handler [] Samples.clash_request)
     = Some (Ok {[ "a" := PyInt 1 ]}).
Proof. split; reflexivity. Qed.

(** C7 on the two handlers, for [?timeout=-5]: the HTTP handler returns
    no timeout, the legacy one calls the broker with [server_timeout=-5]. *)
Lemma legacy_handler_forwards_negative_timeout :
  HttpHandlers.get_execution_parameters
    (Samples.http_handler [] Samples.negative_timeout_request)
  = Ok (PyDict ∅, {[ "fetch_execution_logs" := PyBool false ]}, PyNone)
  /\ LegacyHandlers.handle_through_remote_object
       (Samples.legacy_handler [] Samples.negative_timeout_request) "PUT"
       (Ok (PyBytes "42"))
     = Some
         ([LegacyAsyncExecute "spectrometer" "/spectrometer/integration-time/write"
             ∅ {[ "fetch_execution_logs" := PyBool false ]} (PyInt (-5));
           SetStatus 200 None;
           SetHeader "Content-Type" "application/json";
           SetHeader "Access-Control-Allow-Credentials" "true";
           Write (PyBytes "42")],
          Returned).
Proof. split; reflexivity. Qed.

End Arguments.

(** ** The legacy RPC handler and the origin
    ([RPCHandler.has_access_control], [handle_through_remote_object]) *)

Section LegacyAccess.
Import LegacyHandlers.

Lemma handle_through_remote_object_unknown_verb self http_method outcome :
  instructions (resource self) !! http_method = None ->
  handle_through_remote_object self http_method outcome
  = Some ([SetStatus 404 (Some "not found")], Returned).
Proof. unfold handle_through_remote_object. by intros ->. Qed.

Lemma write_if_truthy_observed reply :
  written (write_if_truthy reply) = (if truthy reply then [reply] else [])
  /\ broker_calls (write_if_truthy reply) = []
  /\ forall s,
       fold_left (fun s a => match a with SetStatus c _ => c | _ => s end)
         (write_if_truthy reply) s = s.
Proof. unfold write_if_truthy. by destruct (truthy reply). Qed.

Lemma handle_through_remote_object_prepared
    self http_method instruction prepared outcome :
  instructions (resource self) !! http_method = Some instruction ->
  prepare_arguments self = Some prepared ->
  handle_through_remote_object self http_method outcome
  = Some (answered self instruction prepared outcome).
Proof.
  intros Hi Hp. unfold handle_through_remote_object.
  rewrite Hi, Hp. reflexivity.
Qed.


(** When preparing the arguments raises, the broker is not called. *)
Lemma answered_without_arguments self instruction outcome e :
  broker_calls (answered self instruction (Raise e) outcome).1 = [].
Proof.
  unfold answered. cbn [remote_object_try].
  destruct (isinstance_Exception e); [|reflexivity].
  destruct (dumps _ _); [|reflexivity].
  cbn [fst app]. by destruct (write_if_truthy_observed (PyBytes a)) as (_ & -> & _).
Qed.





End LegacyAccess.

(** ** Writing the reply
    ([handle_through_thing], [handle_through_remote_object]) *)

Section Reply.

Lemma write_reply_observed self reply :
  written (HttpHandlers.write_reply self reply)
  = (if truthy reply then [reply] else [])
  /\ forall s,
       fold_left (fun s a => match a with SetStatus c _ => c | _ => s end)
         (HttpHandlers.write_reply self reply) s = s.
Proof.
  unfold HttpHandlers.write_reply, HttpHandlers.set_headers.
  by destruct (truthy reply).
Qed.





End Reply.

(** ** The event tunnel ([EventHandler.handle_datastream]) *)

Section EventTunnel.
Import HttpHandlers.

Lemma datastream_turn_arrival self o :
  o <> Some EmptyString ->
  datastream_turn self (arrival o) = (relayed self o, Ok tt).
Proof.
  intros Hne. unfold datastream_turn, arrival. cbn.
  destruct o as [m|]; [|reflexivity]. cbn.
  destruct m as [|c m]; [done|reflexivity].
Qed.

(** While the peer is connected, the turns are relayed one by one, in
    order: each message as one frame followed by a flush, each silent poll
    interval as a flush alone. *)
Lemma datastream_loop_relays self (arrivals : list (option string)) :
  Forall (fun o => o <> Some EmptyString) arrivals ->
  datastream_loop self (arrival <$> arrivals)
  = (flat_map (relayed self) arrivals, Awaiting).
Proof.
  induction 1 as [|o arrivals Ho _ IH]; [reflexivity|].
  cbn [fmap list_fmap datastream_loop flat_map].
  rewrite (datastream_turn_arrival _ _ Ho).
  change (list_fmap _ _ arrival arrivals) with (arrival <$> arrivals).
  rewrite IH. reflexivity.
Qed.

(** A turn whose flush meets a closed stream is the last one. *)
Lemma datastream_loop_closed self p rest t e :
  datastream_turn self p = (t, Raise e) ->
  isinstance_StreamClosedError e = true ->
  datastream_loop self (p :: rest) = (t ++ datastream_cleanup self, Returned).
Proof.
  intros Hturn Hclosed. cbn [datastream_loop]. rewrite Hturn, Hclosed.
  reflexivity.
Qed.

(** C6 on the HTTP event handler (X3): two messages with [n + 1] silent poll
    intervals between them are relayed as the frame of the first, [n + 1]
    heartbeat flushes, and the frame of the second, in that order; the
    frames written are exactly these two; and a turn whose flush fails
    with [StreamClosedError] (heartbeat or not) ends the loop, whatever
    would have arrived afterwards. *)
Theorem handle_datastream_relays_in_order_with_heartbeats
    (self : BaseHandler) (m1 m2 : string) (n : nat) :
  m1 <> EmptyString ->
  m2 <> EmptyString ->
  let polls := arrival <$> (Some m1 :: replicate (S n) None ++ [Some m2]) in
  handle_datastream self (Ok tt) polls
  = (SetStatus 200 None
       :: [Write (frame self m1); Flush]
       ++ replicate (S n) Flush
       ++ [Write (frame self m2); Flush],
     Awaiting)
  /\ written (handle_datastream self (Ok tt) polls).1
     = [frame self m1; frame self m2]
  /\ (forall data e rest,
        isinstance_StreamClosedError e = true ->
        truthy data = false \/ (exists b, data = PyBytes b) ->
        exists t,
          datastream_loop self
            ({| received := Ok data; flushed := Raise e |} :: rest)
          = (t ++ datastream_cleanup self, Returned)
          /\ last t = Some Flush).
Proof.
  intros H1 H2 polls.
  assert (Hflat : forall k,
    flat_map (relayed self) (replicate k None) = replicate k Flush).
  { induction k as [|k IH]; [reflexivity|]. cbn. by rewrite IH. }
  assert (Hrun : handle_datastream self (Ok tt) polls
    = (SetStatus 200 None
         :: [Write (frame self m1); Flush]
         ++ replicate (S n) Flush
         ++ [Write (frame self m2); Flush],
       Awaiting)).
  { unfold handle_datastream, polls. rewrite datastream_loop_relays.
    - cbn [flat_map relayed]. rewrite flat_map_app, Hflat. cbn [flat_map relayed].
      by rewrite app_nil_r.
    - constructor; [congruence|]. apply Forall_app. split.
      + apply Forall_replicate. discriminate.
      + constructor; [congruence|constructor]. }
  split; [exact Hrun|]. split.
  - rewrite Hrun. cbn [fst].
    assert (Hnone : forall k, written (replicate k Flush) = []).
    { induction k as [|k IH]; [reflexivity|]. exact IH. }
    change (SetStatus 200 None :: ?a ++ ?b ++ ?c)
      with ([SetStatus 200 None] ++ a ++ b ++ c).
    rewrite !written_app, Hnone. reflexivity.
  - intros data e rest Hclosed Hdata.
    destruct (truthy data) eqn:Htruthy.
    + destruct Hdata as [|[b ->]]; [discriminate|].
      exists [Write (frame self b); Flush]. split; [|reflexivity].
      apply (datastream_loop_closed _ _ _ _ e); [|exact Hclosed].
      unfold datastream_turn. cbn [received flushed]. rewrite Htruthy.
      reflexivity.
    + exists [Flush]. split; [|reflexivity].
      apply (datastream_loop_closed _ _ _ _ e); [|exact Hclosed].
      unfold datastream_turn. cbn [received flushed]. rewrite Htruthy.
      reflexivity.
Qed.

Lemma handle_datastream_heartbeat_example :
  written
    (handle_datastream (Samples.http_handler [] Samples.plain_request) (Ok tt)
       (arrival <$> (Some "m1" :: replicate 2 None ++ [Some "m2"]))).1
  = [frame (Samples.http_handler [] Samples.plain_request) "m1";
     frame (Samples.http_handler [] Samples.plain_request) "m2"].
Proof.
  apply (handle_datastream_relays_in_order_with_heartbeats
           (Samples.http_handler [] Samples.plain_request) "m1" "m2" 1);
    discriminate.
Defined.

(** The frames written are the frames of the messages that arrived, in
    the order of arrival, each once, however the silent poll intervals are
    interleaved with them (X4). *)
Theorem handle_datastream_preserves_order
    (self : BaseHandler) (arrivals : list (option string)) :
  Forall (fun o => o <> Some EmptyString) arrivals ->
  written (handle_datastream self (Ok tt) (arrival <$> arrivals)).1
  = frame self <$> omap id arrivals.
Proof.
  intros Hne. unfold handle_datastream.
  rewrite (datastream_loop_relays _ _ Hne). cbn [fst].
  change (SetStatus 200 None :: ?t) with ([SetStatus 200 None] ++ t).
  rewrite written_app.
  change (written [SetStatus 200 None]) with (@nil pyval). cbn [app].
  clear Hne.
  induction arrivals as [|[m|] arrivals IH]; [reflexivity| |].
  - cbn [flat_map relayed].
    change ([Write (frame self m); Flush] ++ ?t)
      with ([Write (frame self m)] ++ [Flush] ++ t).
    rewrite !written_app, IH. reflexivity.
  - cbn [flat_map relayed]. rewrite written_app, IH. reflexivity.
Qed.

Lemma handle_datastream_preserves_order_example :
  written
    (handle_datastream (Samples.http_handler [] Samples.plain_request) (Ok tt)
       (arrival <$> [None; Some "m1"; Some "m2"; None; Some "m3"])).1
  = frame (Samples.http_handler [] Samples.plain_request)
      <$> omap id [None; Some "m1"; Some "m2"; None; Some "m3"].
Proof.
  apply handle_datastream_preserves_order.
  repeat constructor; discriminate.
Defined.

(** C6 on the legacy event handler: its loop has no branch for a turn
    without data, so between the two frames there is no flush at all; the
    only flushes are the ones that follow a frame. *)
Lemma legacy_handle_datastream_has_no_heartbeat :
  LegacyHandlers.handle_datastream
    (Samples.legacy_handler [] Samples.plain_request) (Ok tt)
    (legacy_arrival <$> [Some "m1"; None; None; Some "m2"])
  = ([Write (PyBytes ("data: m1" +:+ LF +:+ LF)); Flush;
      Write (PyBytes ("data: m2" +:+ LF +:+ LF)); Flush],
     Awaiting)
  /\ handle_datastream (Samples.http_handler [] Samples.plain_request) (Ok tt)
       (arrival <$> [Some "m1"; None; None; Some "m2"])
     = ([SetStatus 200 None;
         Write (PyBytes ("data: m1" +:+ LF +:+ LF)); Flush;
         Flush; Flush;
         Write (PyBytes ("data: m2" +:+ LF +:+ LF)); Flush],
        Awaiting).
Proof. split; reflexivity. Qed.

End EventTunnel.

(** ** The JSON serializer ([JSONSerializer.default], [dumps], [loads]) *)

Section JSON.
Import Serializers.

(** C8 on the code.  [dumps] gives an object to [default] only when the
    JSON library has no encoding of its own for it.  For an enum member
    the library has one, the member's value: then [dumps] is the text of
    that value, [default] and its [return obj.name] are not reached, and
    [loads(dumps(member))] is the value, not the name, whenever the two
    differ. *)
Theorem enum_round_trip_gives_the_value
    (lib : backend) (fmt : exn -> pyobj) (registry : gmap pyref replacement)
    (fuel : nat) (cls name : string) (value : pyobj) (doc : pyval) :
  native_option lib (OEnum cls name value) = Some doc ->
  decode_document lib (encode_document lib doc) = Ok doc ->
  doc <> PyStr name ->
  dumps lib fmt registry (S fuel) (OEnum cls name value)
  = Ok (encode_document lib doc)
  /\ round_trip lib fmt registry (S fuel) (OEnum cls name value) = Ok doc
  /\ round_trip lib fmt registry (S fuel) (OEnum cls name value)
     <> Ok (PyStr name)
  /\ default fmt registry (OEnum cls name value) = Ok (OStr name).
Proof.
  intros Hnative Hread Hne.
  assert (Hdumps : dumps lib fmt registry (S fuel) (OEnum cls name value)
                   = Ok (encode_document lib doc)).
  { unfold dumps. cbn [encode]. by rewrite Hnative. }
  assert (Htrip : round_trip lib fmt registry (S fuel) (OEnum cls name value)
                  = Ok doc).
  { unfold round_trip. rewrite Hdumps. exact Hread. }
  split; [exact Hdumps|]. split; [exact Htrip|].
  split; [|reflexivity].
  rewrite Htrip. congruence.
Qed.

End JSON.

(** For [class Color(Enum): RED = "r"] the round trip of [Color.RED] is
    ["r"]. *)
Lemma enum_round_trip_gives_the_value_example :
  round_trip Samples.enum_by_value_backend
    Samples.sample_format_exception_object ∅ 1
    (Serializers.OEnum "Color" "RED" (Serializers.OStr "r"))
  = Ok (PyStr "r").
Proof.
  apply (enum_round_trip_gives_the_value Samples.enum_by_value_backend
           Samples.sample_format_exception_object ∅ 0 "Color" "RED"
           (Serializers.OStr "r") (PyStr "r")); [reflexivity|reflexivity|].
  discriminate.
Defined.

(** ** Registering type replacements
    ([JSONSerializer.register_type_replacement],
     [SerpentSerializer.register_type_replacement]) *)

Section Registry.
Import Serializers.

Lemma refused_iff object_type :
  is_type object_type || negb (inspect_isclass object_type) = true
  <-> object_type = TheTypeType \/ inspect_isclass object_type = false.
Proof.
  destruct object_type; cbn; split; intros H;
    try discriminate; try destruct H; try discriminate; auto.
Qed.

(** C10: given the class [type] itself or an object that is not a class,
    [register_type_replacement] raises [ValueError] and leaves the
    registry as it was; given any other class it returns, the registry
    then holds the given function for that class, and the entries of all
    other classes are as before.  The serpent variant does the same on
    serpent's class registry, where it stores a serializer that calls the
    given function on the object and has serpent serialize what the
    function returns: by [ser_default_class] when that is the object
    itself, by [_serialize] otherwise; what the function raises, the
    serializer raises. *)
Theorem register_type_replacement_spec
    (registry : gmap pyref replacement)
    (classes : gmap pyref (pyobj -> result serpent_call))
    (object_type : pyref) (replacement_function : replacement) :
  (object_type = TheTypeType \/ inspect_isclass object_type = false ->
     (exists e,
        register_type_replacement registry object_type replacement_function
        = (registry, Raise e)
        /\ exn_class e = ValueError)
     /\ (exists e,
          serpent_register_type_replacement classes object_type replacement_function
          = (classes, Raise e)
          /\ exn_class e = ValueError))
  /\ (object_type <> TheTypeType -> inspect_isclass object_type = true ->
      (exists registry',
         register_type_replacement registry object_type replacement_function
         = (registry', Ok tt)
         /\ registry' !! object_type = Some replacement_function
         /\ forall other, other <> object_type ->
              registry' !! other = registry !! other)
      /\ (exists classes',
            serpent_register_type_replacement classes object_type replacement_function
            = (classes', Ok tt)
            /\ classes' !! object_type = Some (custom_serializer replacement_function)
            /\ (forall obj,
                  custom_serializer replacement_function obj
                  = match replacement_function obj with
                    | Ok SameObject => Ok (SerDefaultClass obj)
                    | Ok (NewObject replaced) => Ok (Serialize replaced)
                    | Raise e => Raise e
                    end)
            /\ forall other, other <> object_type ->
                 classes' !! other = classes !! other)).
Proof.
  unfold register_type_replacement, serpent_register_type_replacement. split.
  - intros H. apply refused_iff in H. rewrite H.
    split; eexists; (split; [reflexivity|reflexivity]).
  - intros Hnt Hcls.
    assert (H : is_type object_type || negb (inspect_isclass object_type) = false).
    { destruct (is_type object_type || negb (inspect_isclass object_type)) eqn:E;
        [|reflexivity].
      apply refused_iff in E as [E|E]; congruence. }
    rewrite H. split; eexists; (split; [reflexivity|]); split.
    + apply lookup_insert_eq.
    + intros other Hother. by apply lookup_insert_ne.
    + apply lookup_insert_eq.
    + split.
      * intros obj. unfold custom_serializer.
        by destruct (replacement_function obj) as [[]|].
      * intros other Hother. by apply lookup_insert_ne.
Qed.

Lemma register_type_replacement_example :
  exists registry',
    register_type_replacement ∅ (AClass "Quantity") Samples.quantity_replacement
    = (registry', Ok tt)
    /\ registry' !! AClass "Quantity" = Some Samples.quantity_replacement
    /\ forall other, other <> AClass "Quantity" ->
         registry' !! other = (∅ : gmap pyref replacement) !! other.
Proof.
  apply (proj2 (register_type_replacement_spec ∅ ∅ (AClass "Quantity")
                  Samples.quantity_replacement));
    [discriminate|reflexivity].
Defined.

(** A registered replacement is what [default] then applies to an
    instance of that class. *)
Lemma default_uses_registered_replacement :
  default Samples.sample_format_exception_object
    (register_type_replacement ∅ (AClass "Quantity")
       Samples.quantity_replacement).1
    (OInstance "Quantity" "3 mm")
  = Ok (OStr "3 mm")
  /\ default Samples.sample_format_exception_object ∅
       (OInstance "Quantity" "3 mm")
     = Raise (mk_exn TypeError "Given type cannot be converted to JSON").
Proof. split; reflexivity. Qed.

End Registry.

(** * Further properties of the code *)

Import Coverage.

(** ** [RPCHandler.handle_through_thing]: every way it can end *)

Section Responses.
Import HttpHandlers.

Lemma leaves_response_folds pre t :
  forallb leaves_response pre = true ->
  (forall s,
     fold_left (fun s a => match a with SetStatus c _ => c | _ => s end)
       (pre ++ t) s
     = fold_left (fun s a => match a with SetStatus c _ => c | _ => s end) t s)
  /\ written (pre ++ t) = written t
  /\ (forall n v,
        fold_left
          (fun v a =>
             match a with
             | SetHeader n' x => if String.eqb n' n then Some x else v
             | _ => v
             end) (pre ++ t) v
        = fold_left
            (fun v a =>
               match a with
               | SetHeader n' x => if String.eqb n' n then Some x else v
               | _ => v
               end) t v)
  /\ List.filter is_finish (pre ++ t) = List.filter is_finish t.
Proof.
  induction pre as [|a pre IH]; [done|].
  cbn [forallb]. intros [Ha Hpre]%andb_true_iff.
  destruct (IH Hpre) as (IH1 & IH2 & IH3 & IH4).
  destruct a; try discriminate; cbn [app];
    (split; [exact IH1|split; [exact IH2|split; [exact IH3|exact IH4]]]).
Qed.

Lemma leaves_response_observed pre t :
  forallb leaves_response pre = true ->
  response_status (pre ++ t) = response_status t
  /\ written (pre ++ t) = written t
  /\ (forall n, response_header n (pre ++ t) = response_header n t)
  /\ List.filter is_finish (pre ++ t) = List.filter is_finish t.
Proof.
  intros H. destruct (leaves_response_folds pre t H) as (H1 & H2 & H3 & H4).
  split; [apply H1|]. split; [exact H2|]. split; [|exact H4].
  intros n. apply H3.
Qed.

(** What a response made of a status, entries that leave the response
    as it is, and the statements after the [try] looks like. *)
Lemma write_reply_response self status reason extra reply :
  forallb leaves_response extra = true ->
  let t := (SetStatus status reason :: extra) ++ write_reply self reply in
  response_status t = status
  /\ last t = Some Finish
  /\ List.filter is_finish t = [Finish]
  /\ response_header "Content-Type" t = Some (content_type self)
  /\ (length (written t) <= 1)%nat.
Proof.
  intros Hextra t. subst t.
  unfold response_status, response_header. cbn [app fold_left].
  destruct (leaves_response_folds extra (write_reply self reply) Hextra)
    as (Hs & Hw & Hh & Hf).
  rewrite Hs, Hh.
  change (written (SetStatus status reason :: ?l)) with (written l).
  change (List.filter is_finish (SetStatus status reason :: ?l))
    with (List.filter is_finish l).
  rewrite Hw, Hf. unfold write_reply, set_headers.
  split; [by destruct (truthy reply)|].
  split; [by rewrite app_comm_cons, !app_assoc, last_snoc|].
  split; [by destruct (truthy reply)|].
  split; [by destruct (truthy reply)|].
  destruct (truthy reply); cbn; lia.
Qed.

(** X6.  However the request is made, [handle_through_thing] ends in one
    of two ways.  If it returns, the status is 503 or 500, [finish] was
    called exactly once and last, the [Content-Type] of the handler class
    is set and at most one chunk was written.  If an exception leaves it,
    [finish] was not called. *)
Theorem handle_through_thing_ends
    (self : BaseHandler) (operation : Operations) (limit : nat) :
  let t := (handle_through_thing self operation limit).1 in
  match (handle_through_thing self operation limit).2 with
  | Returned =>
      (response_status t = 503 \/ response_status t = 500)
      /\ last t = Some Finish
      /\ List.filter is_finish t = [Finish]
      /\ response_header "Content-Type" t = Some (content_type self)
      /\ (length (written t) <= 1)%nat
  | Propagated _ => List.filter is_finish t = []
  | Awaiting => False
  end.
Proof.
  cbn zeta. induction limit as [|limit IH]; [reflexivity|].
  cbn [handle_through_thing].
  destruct (try_block_raises self) as [ex ->].
  destruct (isinstance_ConnectionAbortedError ex).
  { cbn [fst snd].
    destruct (write_reply_response self 503 (Some (exn_message ex))
                [ScheduleUpdateRouter (instance_name (resource self))] PyNone
                eq_refl) as (H1 & H2 & H3 & H4 & H5).
    split; [by left|]. by repeat split. }
  destruct (isinstance_ConnectionError ex).
  { destruct (handle_through_thing self operation limit) as [t c].
    cbn [fst snd] in *.
    destruct (leaves_response_observed
                [UpdateRouter (instance_name (resource self))] t eq_refl)
      as (Hs & Hw & Hh & Hf).
    rewrite Hs, Hw, Hh, Hf.
    destruct c; [|exact IH|exact IH].
    destruct IH as (I1 & I2 & I3 & I4 & I5).
    split; [exact I1|]. split; [|by repeat split].
    rewrite last_app, I2. reflexivity. }
  destruct (isinstance_Exception ex); [|reflexivity].
  destruct (dumps _ _) as [reply|e']; [|reflexivity].
  cbn [fst snd].
  destruct (write_reply_response self 500
              (Some "error while scheduling RPC call") [] (PyBytes reply)
              eq_refl) as (H1 & H2 & H3 & H4 & H5).
  split; [by right|]. by repeat split.
Qed.

Lemma handle_through_thing_no_broker_call self operation limit :
  broker_calls (handle_through_thing self operation limit).1 = [].
Proof.
  induction limit as [|limit IH]; [reflexivity|].
  cbn [handle_through_thing].
  destruct (try_block_raises self) as [ex ->].
  destruct (isinstance_ConnectionAbortedError ex).
  { cbn [fst]. by rewrite broker_calls_app, write_reply_no_broker_call. }
  destruct (isinstance_ConnectionError ex).
  { destruct (handle_through_thing self operation limit) as [t c].
    cbn [fst] in *. by rewrite broker_calls_app, IH. }
  destruct (isinstance_Exception ex); [|reflexivity].
  destruct (dumps _ _); [|reflexivity].
  cbn [fst]. by rewrite broker_calls_app, write_reply_no_broker_call.
Qed.

(** X9.  An exception that is no [ConnectionError], raised in the [try]
    block (a body or a query parameter that does not decode, the
    [ValueError] of the unpacking), is answered 500: the body is the
    serialized [{"exception": ...}] description, the broker is not
    called, the router is not updated and the call is not repeated. *)
Theorem handle_through_thing_other_exception
    (self : BaseHandler) (operation : Operations) (limit : nat)
    (ex : exn) (body : string) :
  try_block self = Raise ex ->
  isinstance_ConnectionError ex = false ->
  isinstance_Exception ex = true ->
  dumps (serializer self)
    (PyDict {[ "exception" := format_exception_as_json self ex ]}) = Ok body ->
  let r := handle_through_thing self operation (S limit) in
  r.2 = Returned
  /\ response_status r.1 = 500
  /\ written r.1 = (if truthy (PyBytes body) then [PyBytes body] else [])
  /\ broker_calls r.1 = []
  /\ List.filter is_update_router r.1 = [].
Proof.
  intros Htry Hce Hex Hdumps r. subst r.
  rewrite (handle_through_thing_other self operation limit ex Htry Hce Hex),
    Hdumps.
  cbn [fst snd]. split; [reflexivity|].
  destruct (write_reply_response self 500
              (Some "error while scheduling RPC call") [] (PyBytes body)
              eq_refl) as (H1 & _).
  split; [exact H1|].
  rewrite written_app, broker_calls_app, List.filter_app,
    write_reply_no_broker_call, write_reply_no_update.
  destruct (write_reply_observed self (PyBytes body)) as [Hw _].
  rewrite Hw. by repeat split.
Qed.

Lemma handle_through_thing_other_exception_example :
  let r := handle_through_thing
             (Samples.http_handler [] Samples.undecodable_request)
             readProperty 1 in
  r.2 = Returned
  /\ response_status r.1 = 500
  /\ written r.1 = (if truthy (PyBytes "{exception document}")
                    then [PyBytes "{exception document}"] else [])
  /\ broker_calls r.1 = []
  /\ List.filter is_update_router r.1 = [].
Proof.
  apply (handle_through_thing_other_exception
           (Samples.http_handler [] Samples.undecodable_request) readProperty 0
           (mk_exn (OtherException "DecodeError") "malformed document")
           "{exception document}"); reflexivity.
Defined.

End Responses.

(** ** [BaseHandler.get_execution_parameters]: bodies that are no object,
    and what makes it raise *)

Section ExecutionParameters.
Import HttpHandlers.

(** X10.  A body that does not deserialize makes
    [get_execution_parameters] raise the deserializer's exception, and a
    body that deserializes to anything but an object (a list, a number, a
    string, ...) is returned as it is, with an empty context and the
    timeout 5; in both cases the query string is not looked at, so not even
    a [timeout] or a malformed value in it has an effect. *)
Theorem get_execution_parameters_body_not_an_object (self : BaseHandler) :
  body (request self) <> EmptyString ->
  (forall e,
     loads (serializer self) (body (request self)) = Raise e ->
     get_execution_parameters self = Raise e)
  /\ (forall v,
        loads (serializer self) (body (request self)) = Ok v ->
        (forall d, v <> PyDict d) ->
        get_execution_parameters self = Ok (v, ∅, PyInt 5)).
Proof.
  intros Hbody. unfold get_execution_parameters.
  assert (Hlen : Nat.ltb 0 (String.length (body (request self))) = true).
  { destruct (body (request self)); [done|reflexivity]. }
  rewrite Hlen. split.
  - by intros e ->.
  - intros v -> Hv. cbn [mbind result_bind].
    destruct v; try reflexivity. by destruct (Hv m).
Qed.

Lemma get_execution_parameters_list_body_example :
  get_execution_parameters
    (Samples.http_handler []
       {| headers := ∅; body := "7";
          query_arguments := [("timeout", ["-5"]); ("x", ["not json"])] |})
  = Ok (PyInt 7, ∅, PyInt 5).
Proof.
  apply (proj2 (get_execution_parameters_body_not_an_object
                  (Samples.http_handler []
                     {| headers := ∅; body := "7";
                        query_arguments :=
                          [("timeout", ["-5"]); ("x", ["not json"])] |})
                  ltac:(discriminate)) (PyInt 7)).
  - reflexivity.
  - discriminate.
Defined.

Lemma merge_query_arguments_raises s before key value after q d e :
  Forall2 (fun item kv => kv.1 = item.1 /\ deserializes s item.2 kv.2) before q ->
  query_value s value = Raise e ->
  merge_query_arguments s (before ++ (key, value) :: after) d = Raise e.
Proof.
  intros Hbefore Hvalue. revert d.
  induction Hbefore as [|[k raw] [k' v] before q [Hk Hv] _ IH]; intros d.
  - cbn. by rewrite Hvalue.
  - cbn in *. rewrite (query_value_deserializes _ _ _ Hv). cbn. apply IH.
Qed.

(** X11.  With an object as body (or no body), [get_execution_parameters]
    raises in two cases.  If a query parameter has a value that does not
    deserialize, the exception of the first such parameter, in the order of
    the query parameters, is raised.  If all deserialize but the timeout
    given, by body or query string, is neither [None] nor a number (a
    string such as ["5"], a list), [TypeError] is raised.  Nothing is
    returned in either case. *)
Theorem get_execution_parameters_raises
    (self : BaseHandler) (d : gmap string pyval) :
  (if Nat.ltb 0 (String.length (body (request self)))
   then loads (serializer self) (body (request self)) = Ok (PyDict d)
   else d = ∅) ->
  (forall before key value after q e,
     query_arguments (request self) = before ++ (key, value) :: after ->
     Forall2 (fun item kv => kv.1 = item.1
                             /\ deserializes (serializer self) item.2 kv.2)
       before q ->
     query_value (serializer self) value = Raise e ->
     get_execution_parameters self = Raise e)
  /\ (forall q timeout,
        Forall2 (fun item kv => kv.1 = item.1
                                /\ deserializes (serializer self) item.2 kv.2)
          (query_arguments (request self)) q ->
        NoDup q.*1 ->
        (list_to_map q ∪ d) !! "timeout" = Some timeout ->
        is_None timeout || is_number timeout = false ->
        exists e,
          get_execution_parameters self = Raise e
          /\ exn_class e = TypeError).
Proof.
  intros Hbody.
  assert (Hparsed :
    (if Nat.ltb 0 (String.length (body (request self)))
     then loads (serializer self) (body (request self))
     else Ok (PyDict ∅)) = Ok (PyDict d)).
  { destruct (Nat.ltb _ _); [exact Hbody|by subst d]. }
  split.
  - intros before key value after q e Hquery Hbefore Hvalue.
    unfold get_execution_parameters. rewrite Hparsed. cbn [mbind result_bind].
    rewrite Hquery.
    assert (Hlen : Nat.leb 1 (length (before ++ (key, value) :: after)) = true).
    { destruct before; reflexivity. }
    rewrite Hlen.
    by rewrite (merge_query_arguments_raises _ _ _ _ _ _ _ _ Hbefore Hvalue).
  - intros q timeout Hquery Hnd Htimeout Hbad.
    unfold get_execution_parameters. rewrite Hparsed. cbn [mbind result_bind].
    assert (Hmerge :
      (if Nat.leb 1 (length (query_arguments (request self)))
       then merge_query_arguments (serializer self)
              (query_arguments (request self)) d
       else Ok d) = Ok (list_to_map q ∪ d)).
    { rewrite <- (foldl_insert_union _ _ Hnd).
      destruct (Nat.leb _ _) eqn:Hlen.
      - by apply merge_query_arguments_ok.
      - destruct Hquery; [reflexivity|discriminate]. }
    rewrite Hmerge. cbn [mbind result_bind]. unfold dict_pop. cbn [fst snd].
    rewrite (lookup_delete_ne (list_to_map q ∪ d)) by discriminate.
    rewrite Htimeout.
    apply orb_false_iff in Hbad as [Hnone Hnum].
    destruct timeout; try discriminate; cbn; eexists; split; reflexivity.
Qed.

Lemma get_execution_parameters_raises_example :
  exists e,
    get_execution_parameters
      (Samples.http_handler []
         {| headers := ∅; body := EmptyString;
            query_arguments := [("timeout", ["1"; "2"])] |})
    = Raise e
    /\ exn_class e = TypeError.
Proof.
  apply (proj2 (get_execution_parameters_raises
                  (Samples.http_handler []
                     {| headers := ∅; body := EmptyString;
                        query_arguments := [("timeout", ["1"; "2"])] |})
                  ∅ eq_refl)
           [("timeout", PyList [PyInt 1; PyInt 2])]
           (PyList [PyInt 1; PyInt 2])).
  - repeat constructor. exists [PyInt 1; PyInt 2].
    split; [repeat constructor|reflexivity].
  - cbn. apply NoDup_singleton.
  - reflexivity.
  - reflexivity.
Defined.

(** X12.  For a resource with [request_as_argument] the request object is
    stored under the key [request] after the merge, so it replaces an
    argument of that name sent by the client, and every other argument is
    as it would be without the flag; the context returned always has the
    one key [fetch_execution_logs], whose value is the one given by the
    query string, else by the body, else [False]. *)
Theorem get_execution_parameters_request_and_context
    (self : BaseHandler) (d : gmap string pyval) (q : list (string * pyval)) :
  request_decodes (serializer self) (request self) d q ->
  is_None (default PyNone ((list_to_map q ∪ d) !! "timeout"))
  || is_number (default PyNone ((list_to_map q ∪ d) !! "timeout")) = true ->
  exists (arguments context : gmap string pyval) (timeout : pyval),
    get_execution_parameters self = Ok (PyDict arguments, context, timeout)
    /\ (request_as_argument (resource self) = true ->
        arguments !! "request" = Some PyRequest
        /\ forall k, k <> "request" ->
             arguments !! k = without_reserved (list_to_map q ∪ d) !! k)
    /\ dom context = {[ "fetch_execution_logs" ]}
    /\ context !! "fetch_execution_logs"
       = Some (match (list_to_map q : gmap string pyval) !! "fetch_execution_logs" with
               | Some v => v
               | None => default (PyBool false) (d !! "fetch_execution_logs")
               end).
Proof.
  intros Hreq Hnum.
  rewrite (get_execution_parameters_of_object self d q Hreq Hnum).
  eexists _, _, _. split; [reflexivity|]. split; [|split].
  - intros ->. split; [apply lookup_insert_eq|].
    intros k Hk. by rewrite lookup_insert_ne.
  - apply dom_singleton_L.
  - rewrite lookup_singleton_eq, lookup_union. f_equal.
    by destruct (list_to_map q !! "fetch_execution_logs"),
                (d !! "fetch_execution_logs").
Qed.

Lemma get_execution_parameters_request_and_context_example :
  exists (arguments context : gmap string pyval) (timeout : pyval),
    get_execution_parameters
      (Samples.http_handler []
         {| headers := ∅; body := Samples.object_text "a" "1";
            query_arguments := [("fetch_execution_logs", ["true"])] |})
    = Ok (PyDict arguments, context, timeout)
    /\ context !! "fetch_execution_logs" = Some (PyBool true).
Proof.
  destruct (get_execution_parameters_request_and_context
              (Samples.http_handler []
                 {| headers := ∅; body := Samples.object_text "a" "1";
                    query_arguments := [("fetch_execution_logs", ["true"])] |})
              {[ "a" := PyInt 1 ]} [("fetch_execution_logs", PyBool true)])
    as (arguments & context & timeout & Hrun & _ & _ & Hctx).
  - split; [reflexivity|]. split; [repeat constructor|].
    cbn. apply NoDup_singleton.
  - reflexivity.
  - exists arguments, context, timeout. split; [exact Hrun|exact Hctx].
Defined.

End ExecutionParameters.

(** ** [ActionHandler], [RPCHandler.options] and [EventHandler] *)

Section OtherHandlers.
Import HttpHandlers.

Lemma has_access_control_leaves_response self :
  broker_calls (has_access_control self).1 = []
  /\ written (has_access_control self).1 = []
  /\ response_status (has_access_control self).1 = 200
  /\ List.filter is_finish (has_access_control self).1 = [].
Proof.
  unfold has_access_control.
  destruct (Nat.eqb _ _); [done|].
  destruct (headers (request self) !! "Origin"); [|done].
  by destruct (_ || _).
Qed.


(** X8.  No RPC handler of this module ever calls the broker:
    [handle_through_thing] does not, whatever the request, the serializer,
    the operation and the number of nested calls, because its [try] block
    raises before [async_execute]; and so neither do the verb methods of
    [PropertyHandler] and of [ActionHandler], whatever the verb. *)
Theorem handle_through_thing_never_calls_broker
    (self : BaseHandler) (operation : Operations) (method : string)
    (limit : nat) :
  broker_calls (handle_through_thing self operation limit).1 = []
  /\ broker_calls (property_verb self method operation limit).1 = []
  /\ broker_calls (action_verb self method limit).1 = [].
Proof.
  destruct (has_access_control_leaves_response self) as (Hb & _).
  split; [apply handle_through_thing_no_broker_call|]. split.
  - unfold property_verb, is_method_allowed.
    pose proof (handle_through_thing_no_broker_call self operation limit) as Hh.
    destruct (has_access_control self) as [t granted]. cbn [fst] in Hb.
    destruct granted; cbn [negb fst];
      [|by rewrite broker_calls_app, Hb].
    destruct (_ || _); cbn [negb fst]; [by rewrite broker_calls_app, Hb|].
    destruct (handle_through_thing self operation limit) as [t' c].
    cbn [fst] in *. by rewrite broker_calls_app, Hb, Hh.
  - unfold action_verb, action_is_method_allowed.
    pose proof (handle_through_thing_no_broker_call self invokeAction limit) as Hh.
    destruct (has_access_control self) as [t granted]. cbn [fst] in Hb.
    destruct granted; cbn [negb fst];
      [|by rewrite broker_calls_app, Hb].
    destruct (handle_through_thing self invokeAction limit) as [t' c].
    cbn [fst] in *. by rewrite broker_calls_app, Hb, Hh.
Qed.

(** X14.  [RPCHandler.options] never calls the broker and always
    finishes: a request that is granted access gets 204 with
    [Access-Control-Allow-Methods] set to the supported methods of the
    resource joined by [", "], any other request gets 401 and no such
    header. *)
Theorem options_answers_without_dispatch
    (self : BaseHandler) (allow_headers : string) :
  let t := options self allow_headers in
  broker_calls t = []
  /\ written t = []
  /\ last t = Some Finish
  /\ (if (has_access_control self).2
      then response_status t = 204
           /\ response_header "Access-Control-Allow-Methods" t
              = Some (String.concat ", " (supported_methods (resource self)))
      else response_status t = 401
           /\ response_header "Access-Control-Allow-Methods" t = None).
Proof.
  intros t. subst t. unfold options.
  destruct (has_access_control_leaves_response self) as (Hb & Hw & Hs & Hf).
  assert (Hh : response_header "Access-Control-Allow-Methods"
                 (has_access_control self).1 = None).
  { unfold has_access_control.
    destruct (Nat.eqb _ _); [done|].
    destruct (headers (request self) !! "Origin"); [|done].
    by destruct (_ || _). }
  destruct (has_access_control self) as [t0 granted]. cbn [fst snd] in *.
  destruct granted.
  - rewrite !broker_calls_app, !written_app, Hb, Hw.
    split; [reflexivity|]. split; [reflexivity|].
    split; [apply last_snoc|].
    rewrite <- app_assoc. split.
    + rewrite response_status_app. reflexivity.
    + unfold response_header in *. rewrite fold_left_app, Hh. reflexivity.
  - rewrite !broker_calls_app, !written_app, Hb, Hw.
    split; [reflexivity|]. split; [reflexivity|].
    split; [apply last_snoc|].
    rewrite <- app_assoc. split.
    + rewrite response_status_app. reflexivity.
    + unfold response_header in *. rewrite fold_left_app, Hh. reflexivity.
Qed.

Lemma datastream_turn_survivable self e :
  survivable self e ->
  match turn_exception e with
  | None => exists o, e = Arrived o
            /\ datastream_turn self (turn_poll e) = (relayed self o, Ok tt)
  | Some ex =>
      datastream_turn self (turn_poll e) = ([], Raise ex)
      /\ isinstance_StreamClosedError ex = false
      /\ isinstance_Exception ex = true
      /\ exists f, exception_frame self ex = Ok f
  end.
Proof.
  intros [Hkind Hdumps]. destruct e as [o|v|ex]; cbn [turn_exception].
  - exists o. split; [reflexivity|]. by apply datastream_turn_arrival.
  - destruct Hkind as [Htruthy Hv].
    destruct (Hdumps _ eq_refl) as [b Hb].
    split; [|split; [reflexivity|split; [reflexivity|]]].
    + unfold datastream_turn. cbn [turn_poll received]. rewrite Htruthy.
      destruct v; try reflexivity. by destruct (Hv b0).
    + unfold exception_frame. rewrite Hb. by eexists.
  - destruct Hkind as [Hclosed Hex].
    destruct (Hdumps _ eq_refl) as [b Hb].
    split; [reflexivity|]. split; [exact Hclosed|]. split; [exact Hex|].
    unfold exception_frame. rewrite Hb. by eexists.
Qed.

(** X15.  An error in one turn of the event loop does not end the stream:
    while every turn is a message, a silent interval, a value that is not
    [bytes] or an exception of [receive] other than [StreamClosedError],
    the loop keeps running, and what it writes is, turn by turn and in
    order, the frame of each message and one frame with the description of
    each exception; later messages are not lost. *)
Theorem datastream_loop_survives_errors
    (self : BaseHandler) (turns : list turn) :
  Forall (survivable self) turns ->
  (datastream_loop self (turn_poll <$> turns)).2 = Awaiting
  /\ written (datastream_loop self (turn_poll <$> turns)).1
     = concat (turn_frames self <$> turns).
Proof.
  induction 1 as [|e turns He _ [IH1 IH2]]; [done|].
  cbn [fmap list_fmap datastream_loop concat].
  change (list_fmap _ _ turn_poll turns) with (turn_poll <$> turns).
  change (list_fmap _ _ (turn_frames self) turns)
    with (turn_frames self <$> turns).
  pose proof (datastream_turn_survivable self e He) as Hturn.
  destruct (datastream_loop self (turn_poll <$> turns)) as [t c].
  cbn [fst snd] in *. subst c.
  destruct (turn_exception e) as [ex|] eqn:Hex.
  - destruct Hturn as (-> & Hclosed & Hexc & f & Hf).
    rewrite Hclosed, Hexc, Hf. cbn [fst snd app]. split; [reflexivity|].
    change (Write (PyBytes f) :: t) with ([Write (PyBytes f)] ++ t).
    rewrite written_app, IH2. f_equal.
    destruct e; try discriminate; cbn [turn_frames];
      rewrite Hex, Hf; reflexivity.
  - destruct Hturn as (o & -> & ->). cbn [fst snd]. split; [reflexivity|].
    rewrite written_app, IH2. f_equal. by destruct o.
Qed.

Lemma datastream_loop_survives_errors_example :
  written
    (datastream_loop (Samples.http_handler [] Samples.plain_request)
       (turn_poll <$> [Arrived (Some "m1");
                       Failed (mk_exn (OtherException "ZMQError") "again");
                       Garbled (PyStr "text");
                       Arrived None;
                       Arrived (Some "m2")])).1
  = concat (turn_frames (Samples.http_handler [] Samples.plain_request)
              <$> [Arrived (Some "m1");
                   Failed (mk_exn (OtherException "ZMQError") "again");
                   Garbled (PyStr "text");
                   Arrived None;
                   Arrived (Some "m2")]).
Proof.
  apply datastream_loop_survives_errors.
  repeat constructor; try discriminate; intros; by eexists.
Defined.

(** X16.  [EventHandler.get] before the stream starts: a request that is
    not granted access is answered 401 and finished without subscribing;
    when creating the event consumer raises, the answer is 500 with the
    serialized description of the exception as body, and the handler
    finishes; in neither case is anything received from the event
    source. *)
Theorem event_get_without_stream
    (self : BaseHandler) (subscribed : result unit) (polls : list poll) :
  ((has_access_control self).2 = false ->
     event_get self subscribed polls
     = ((has_access_control self).1
        ++ [SetStatus 401 (Some "forbidden"); Finish], Returned))
  /\ (forall ex b,
        (has_access_control self).2 = true ->
        subscribed = Raise ex ->
        isinstance_Exception ex = true ->
        dumps (serializer self)
          (PyDict {[ "exception" := format_exception_as_json self ex ]}) = Ok b ->
        event_get self subscribed polls
        = ((has_access_control self).1 ++ event_set_headers
           ++ [SetStatus 500 (Some "could not subscribe to event source from thing");
               Write (PyBytes b)]
           ++ [Finish], Returned)
        /\ response_status (event_get self subscribed polls).1 = 500
        /\ written (event_get self subscribed polls).1 = [PyBytes b]).
Proof.
  destruct (has_access_control_leaves_response self) as (Hb & Hw & Hs & Hf).
  unfold event_get.
  destruct (has_access_control self) as [t granted]. cbn [fst snd] in *.
  split.
  - by intros ->.
  - intros ex b -> -> Hex Hdumps. unfold handle_datastream.
    rewrite Hex, Hdumps. split; [reflexivity|]. cbn [fst].
    rewrite response_status_app, !written_app, Hw. by split.
Qed.

Lemma event_get_without_stream_example :
  event_get (Samples.http_handler ["https://a.example"]
               (Samples.request_from "https://b.example"))
    (Ok tt) [arrival (Some "m1")]
  = ((has_access_control
        (Samples.http_handler ["https://a.example"]
           (Samples.request_from "https://b.example"))).1
     ++ [SetStatus 401 (Some "forbidden"); Finish], Returned).
Proof.
  apply (proj1 (event_get_without_stream
                  (Samples.http_handler ["https://a.example"]
                     (Samples.request_from "https://b.example"))
                  (Ok tt) [arrival (Some "m1")])).
  reflexivity.
Defined.

End OtherHandlers.

(** ** The legacy handlers: arguments, statuses, event stream *)

Section LegacyCoverage.
Import LegacyHandlers.

Lemma update_pairs_of_strings (pairs : list (string * pyval)) :
  forall d,
    update_pairs d ((fun kv => PyList [PyStr kv.1; kv.2]) <$> pairs)
    = Some (Ok (foldl (fun m kv => <[kv.1 := kv.2]> m) d pairs)).
Proof.
  induction pairs as [|[k v] pairs IH]; intros d; [reflexivity|].
  cbn [fmap list_fmap update_pairs update_pair fst snd foldl]. apply IH.
Qed.

(** X17.  The legacy [prepare_arguments], for query parameters that
    deserialize to [q].  With a body that is a JSON object [d] (or no
    body) it returns the map in which every key of the body has the
    body's value and every other key the value of the query parameter of
    that name.  A body that deserializes to [None], a boolean or a number
    makes it raise [TypeError].  A body that is a list of [[key, value]]
    pairs with strings as keys is merged in like an object, pair after
    pair. *)
Theorem legacy_prepare_arguments_merges
    (self : BaseHandler) (q : list (string * pyval)) :
  Forall2 (fun item kv =>
             kv.1 = item.1 /\ deserializes (json_serializer self) item.2 kv.2)
    (query_arguments (request self)) q ->
  NoDup q.*1 ->
  (forall d,
     (if Nat.ltb 0 (String.length (body (request self)))
      then loads (json_serializer self) (body (request self)) = Ok (PyDict d)
      else d = ∅) ->
     exists arguments : gmap string pyval,
       prepare_arguments self = Some (Ok arguments)
       /\ forall k,
            arguments !! k
            = match d !! k with
              | Some v => Some v
              | None => (list_to_map q : gmap string pyval) !! k
              end)
  /\ (forall v,
        body (request self) <> EmptyString ->
        loads (json_serializer self) (body (request self)) = Ok v ->
        v = PyNone \/ is_number v = true ->
        exists e,
          prepare_arguments self = Some (Raise e) /\ exn_class e = TypeError)
  /\ (forall pairs : list (string * pyval),
        body (request self) <> EmptyString ->
        loads (json_serializer self) (body (request self))
        = Ok (PyList ((fun kv => PyList [PyStr kv.1; kv.2]) <$> pairs)) ->
        prepare_arguments self
        = Some (Ok (foldl (fun m kv => <[kv.1 := kv.2]> m)
                      (list_to_map q) pairs))).
Proof.
  intros Hquery Hnd.
  assert (Hlen : body (request self) <> EmptyString ->
                 Nat.ltb 0 (String.length (body (request self))) = true).
  { destruct (body (request self)); [done|reflexivity]. }
  split; [|split].
  - intros d Hbody. exists (d ∪ list_to_map q).
    split; [by apply prepare_arguments_of_object|].
    intros k. rewrite lookup_union.
    by destruct (d !! k), (list_to_map q !! k).
  - intros v Hbody Hloads Hv. unfold prepare_arguments.
    rewrite (legacy_query_arguments_decoded _ _ Hquery Hnd), (Hlen Hbody), Hloads.
    destruct Hv as [->|Hv]; [by eexists|].
    destruct v; try discriminate; by eexists.
  - intros pairs Hbody Hloads. unfold prepare_arguments.
    rewrite (legacy_query_arguments_decoded _ _ Hquery Hnd), (Hlen Hbody), Hloads.
    cbn [dict_update]. apply update_pairs_of_strings.
Qed.

Lemma legacy_prepare_arguments_merges_example :
  exists e,
    prepare_arguments
      (Samples.legacy_handler []
         {| headers := ∅; body := "5"; query_arguments := [] |})
    = Some (Raise e)
    /\ exn_class e = TypeError.
Proof.
  destruct (legacy_prepare_arguments_merges
              (Samples.legacy_handler []
                 {| headers := ∅; body := "5"; query_arguments := [] |})
              [] ltac:(constructor) ltac:(constructor)) as (_ & H & _).
  apply (H (PyInt 5)); [discriminate|reflexivity|by right].
Defined.

Lemma write_if_truthy_sets_no_status reply :
  List.filter is_set_status (write_if_truthy reply) = [].
Proof. unfold write_if_truthy. by destruct (truthy reply). Qed.

(** X18.  When the legacy [handle_through_remote_object] returns, the
    status is 404 for a verb the resource has no instruction for and 200
    in every other case: when the broker call raises, or when preparing
    the arguments raises, no status is set at all, so the serialized
    description of the exception is sent with status 200; in the second
    case the broker is not called. *)
Theorem legacy_status_is_200_or_404
    (self : BaseHandler) (http_method : string) (outcome : result pyval)
    (r : list action * completion) :
  handle_through_remote_object self http_method outcome = Some r ->
  (r.2 = Returned ->
   response_status r.1
   = (if decide (is_Some (instructions (resource self) !! http_method))
      then 200 else 404))
  /\ (forall instruction merged ex b,
        instructions (resource self) !! http_method = Some instruction ->
        prepare_arguments self = Some (Ok merged) ->
        outcome = Raise ex ->
        isinstance_Exception ex = true ->
        dumps (json_serializer self) (format_exception_as_json self ex) = Ok b ->
        r.2 = Returned
        /\ List.filter is_set_status r.1 = []
        /\ written r.1 = (if truthy (PyBytes b) then [PyBytes b] else []))
  /\ (forall instruction e b,
        instructions (resource self) !! http_method = Some instruction ->
        prepare_arguments self = Some (Raise e) ->
        isinstance_Exception e = true ->
        dumps (json_serializer self) (format_exception_as_json self e) = Ok b ->
        r.2 = Returned
        /\ List.filter is_set_status r.1 = []
        /\ written r.1 = (if truthy (PyBytes b) then [PyBytes b] else [])
        /\ broker_calls r.1 = []).
Proof.
  intros Hr. split; [|split].
  - revert Hr. unfold handle_through_remote_object.
    destruct (instructions (resource self) !! http_method) as [instruction|];
      [|intros [= <-] _; by rewrite decide_False by (by intros [? ?])].
    rewrite decide_True by (by eexists).
    cbn [has_access_control].
    destruct (prepare_arguments self) as [prepared|]; [|discriminate].
    cbn [mbind option_bind]. intros [= <-]. unfold answered.
    destruct prepared as [merged|e].
    + rewrite remote_object_try_of_object.
      destruct outcome as [reply|ex].
      * cbn [fst snd]. intros _. rewrite response_status_app.
        destruct (write_if_truthy_observed reply) as (_ & _ & ->). reflexivity.
      * destruct (isinstance_Exception ex); [|discriminate].
        destruct (dumps _ _); [|discriminate].
        cbn [fst snd]. intros _. rewrite response_status_app.
        destruct (write_if_truthy_observed (PyBytes a)) as (_ & _ & ->).
        reflexivity.
    + cbn [remote_object_try].
      destruct (isinstance_Exception e); [|discriminate].
      destruct (dumps _ _); [|discriminate].
      cbn [fst snd]. intros _. rewrite response_status_app.
      destruct (write_if_truthy_observed (PyBytes a)) as (_ & _ & ->).
      reflexivity.
  - intros instruction merged ex b Hi Hp -> Hex Hdumps.
    rewrite (handle_through_remote_object_prepared _ _ _ _ _ Hi Hp) in Hr.
    injection Hr as <-. unfold answered.
    rewrite remote_object_try_of_object, Hex, Hdumps.
    cbn [fst snd]. split; [reflexivity|].
    rewrite List.filter_app, written_app, write_if_truthy_sets_no_status.
    destruct (write_if_truthy_observed (PyBytes b)) as (-> & _ & _).
    by split.
  - intros instruction e b Hi Hp Hex Hdumps.
    rewrite (handle_through_remote_object_prepared _ _ _ _ _ Hi Hp) in Hr.
    injection Hr as <-.
    pose proof (answered_without_arguments self instruction outcome e) as Hb.
    revert Hb. unfold answered. cbn [remote_object_try].
    rewrite Hex, Hdumps. cbn [fst snd app]. intros Hb.
    split; [reflexivity|]. split; [apply write_if_truthy_sets_no_status|].
    destruct (write_if_truthy_observed (PyBytes b)) as (-> & _ & _).
    by split.
Qed.

Lemma legacy_status_is_200_or_404_example :
  let self := Samples.legacy_handler [] Samples.undecodable_request in
  let r := ([Write (PyBytes "{exception document}")], Returned) in
  handle_through_remote_object self "PUT" (Ok (PyBytes "42")) = Some r
  /\ response_status r.1 = 200
  /\ broker_calls r.1 = [].
Proof.
  intros self r.
  destruct (legacy_status_is_200_or_404 self "PUT" (Ok (PyBytes "42")) r eq_refl)
    as (H1 & _ & H3).
  split; [reflexivity|]. split; [by apply H1|].
  by destruct (H3 "/spectrometer/integration-time/write"
                 (mk_exn (OtherException "DecodeError") "malformed document")
                 "{exception document}" eq_refl eq_refl eq_refl eq_refl)
    as (_ & _ & _ & ?).
Defined.

Lemma legacy_datastream_turn_arrival o :
  o <> Some EmptyString ->
  datastream_turn (legacy_arrival o) = (legacy_relayed o, Ok tt).
Proof.
  intros Hne. unfold datastream_turn, legacy_arrival. cbn.
  destruct o as [m|]; [|reflexivity]. cbn.
  destruct m as [|c m]; [done|reflexivity].
Qed.

Lemma legacy_datastream_loop_relays self (arrivals : list (option string)) :
  Forall (fun o => o <> Some EmptyString) arrivals ->
  datastream_loop self (legacy_arrival <$> arrivals)
  = (flat_map legacy_relayed arrivals, Awaiting).
Proof.
  induction 1 as [|o arrivals Ho _ IH]; [reflexivity|].
  cbn [fmap list_fmap datastream_loop flat_map].
  rewrite (legacy_datastream_turn_arrival _ Ho).
  change (list_fmap _ _ legacy_arrival arrivals) with (legacy_arrival <$> arrivals).
  rewrite IH. reflexivity.
Qed.

(** X19.  The legacy [handle_datastream], while the peer is connected:
    the frames written are the frames of the messages, in order and each
    once, and the stream is flushed exactly once per message, never in a
    turn without one.  When a flush meets a closed stream the loop ends
    and the consumer is closed.  When creating the consumer raises, the
    handler itself fails with [UnboundLocalError] and writes nothing. *)
Theorem legacy_handle_datastream_relays
    (self : BaseHandler) (arrivals : list (option string)) :
  Forall (fun o => o <> Some EmptyString) arrivals ->
  let t := (handle_datastream self (Ok tt) (legacy_arrival <$> arrivals)).1 in
  written t
  = (fun m => PyBytes ("data: " +:+ m +:+ LF +:+ LF)) <$> omap id arrivals
  /\ length (List.filter is_flush t) = length (omap id arrivals)
  /\ (forall m e rest,
        m <> EmptyString ->
        isinstance_StreamClosedError e = true ->
        handle_datastream self (Ok tt)
          ({| received := Ok (PyBytes m); flushed := Raise e |} :: rest)
        = ([Write (PyBytes ("data: " +:+ m +:+ LF +:+ LF)); Flush; ConsumerExit],
           Returned))
  /\ (forall ex polls,
        isinstance_Exception ex = true ->
        handle_datastream self (Raise ex) polls
        = ([], Propagated (mk_exn UnboundLocalError "data_header"))).
Proof.
  intros Hne t. subst t. unfold handle_datastream.
  rewrite (legacy_datastream_loop_relays _ _ Hne). cbn [fst].
  split; [|split; [|split]].
  - clear Hne. induction arrivals as [|[m|] arrivals IH]; [reflexivity| |].
    + cbn [flat_map legacy_relayed omap].
      change ([Write ?f; Flush] ++ ?l) with ([Write f] ++ [Flush] ++ l).
      rewrite !written_app, IH. reflexivity.
    + cbn [flat_map legacy_relayed]. exact IH.
  - clear Hne. induction arrivals as [|[m|] arrivals IH]; [reflexivity| |].
    + cbn [flat_map legacy_relayed omap app List.filter is_flush length].
      cbn in IH. by rewrite IH.
    + cbn [flat_map legacy_relayed]. exact IH.
  - intros m e rest Hm Hclosed. cbn [datastream_loop].
    unfold datastream_turn. cbn [received flushed truthy].
    destruct m as [|c m]; [done|]. cbn. by rewrite Hclosed.
  - by intros ex polls ->.
Qed.

Lemma legacy_handle_datastream_relays_example :
  length
    (List.filter is_flush
       (handle_datastream (Samples.legacy_handler [] Samples.plain_request)
          (Ok tt)
          (legacy_arrival <$> [None; Some "m1"; None; None; Some "m2"])).1)
  = length (omap id [None; Some "m1"; None; None; Some "m2"]).
Proof.
  apply (legacy_handle_datastream_relays
           (Samples.legacy_handler [] Samples.plain_request)
           [None; Some "m1"; None; None; Some "m2"]).
  repeat constructor; discriminate.
Defined.

End LegacyCoverage.

(** ** The JSON serializer: registry, plain data, what [default] converts *)

Section SerializerCoverage.
Import Serializers.

(** X20.  How the registry and [default] work together.  After a
    successful [register_type_replacement] for a class, [default] answers
    for an instance of that class with what the registered function
    answers; for an object of any other class that gets as far as the
    registry it answers as before the registration; registering a second
    function for the class replaces the first; and for objects with a
    [json] method or of the classes [default] tests for itself (enums,
    sets, UUIDs, dates, decimals, exceptions, arrays, ...) the registry is
    never consulted, so a replacement registered for such a class has no
    effect. *)
Theorem default_and_registry
    (fmt : exn -> pyobj) (registry : gmap pyref replacement)
    (cls : string) (f g : replacement) :
  let registry' := (register_type_replacement registry (AClass cls) f).1 in
  (forall state,
     default fmt registry' (OInstance cls state)
     = call_replacement f (OInstance cls state))
  /\ (forall obj,
        consults_registry obj = true ->
        type_of obj <> AClass cls ->
        default fmt registry' obj = default fmt registry obj)
  /\ (register_type_replacement registry' (AClass cls) g).1
     = (register_type_replacement registry (AClass cls) g).1
  /\ (forall obj other,
        consults_registry obj = false ->
        default fmt other obj = default fmt registry obj).
Proof.
  intros registry'. subst registry'. cbn [register_type_replacement is_type
    inspect_isclass orb negb fst].
  split; [|split; [|split]].
  - intros state. cbn [default type_of]. by rewrite lookup_insert_eq.
  - intros obj Hc Hne.
    destruct obj; try discriminate; cbn [default type_of] in *;
      by rewrite lookup_insert_ne by congruence.
  - apply insert_insert_eq.
  - intros obj other Hc. by destruct obj.
Qed.

Lemma plain_encode lib lib' hook hook' fuel obj :
  plain fuel obj = true ->
  encode lib hook fuel obj = encode lib' hook' fuel obj
  /\ exists doc, encode lib hook fuel obj = Ok doc.
Proof.
  revert obj. induction fuel as [|fuel IH]; intros obj; [discriminate|].
  assert (HmapM : forall items,
    forallb (plain fuel) items = true ->
    mapM (encode lib hook fuel) items = mapM (encode lib' hook' fuel) items
    /\ exists docs, mapM (encode lib hook fuel) items = Ok docs).
  { induction items as [|x items IHi]; [intros _; split; [done|by eexists]|].
    cbn [forallb]. intros [Hx Hitems]%andb_true_iff.
    destruct (IH x Hx) as (Hx1 & d & Hx2).
    destruct (IHi Hitems) as (Hi1 & ds & Hi2).
    cbn [mapM]. rewrite <- Hx1, <- Hi1, Hx2, Hi2. split; [done|by eexists]. }
  assert (HmapD : forall items : list (string * pyobj),
    forallb (fun kv => plain fuel kv.2) items = true ->
    mapM (fun kv => pair kv.1 <$> encode lib hook fuel kv.2) items
    = mapM (fun kv => pair kv.1 <$> encode lib' hook' fuel kv.2) items
    /\ exists docs,
         mapM (fun kv => pair kv.1 <$> encode lib hook fuel kv.2) items = Ok docs).
  { induction items as [|x items IHi]; [intros _; split; [done|by eexists]|].
    cbn [forallb]. intros [Hx Hitems]%andb_true_iff.
    destruct (IH x.2 Hx) as (Hx1 & d & Hx2).
    destruct (IHi Hitems) as (Hi1 & ds & Hi2).
    cbn [mapM]. rewrite <- Hx1, <- Hi1, Hx2, Hi2. split; [done|by eexists]. }
  destruct obj; cbn [plain]; try discriminate; intros Hp;
    try (split; [reflexivity|by eexists]).
  - destruct (HmapM items Hp) as (H1 & docs & H2).
    cbn [encode]. rewrite <- H1, H2. split; [done|by eexists].
  - destruct (HmapD items Hp) as (H1 & docs & H2).
    cbn [encode]. rewrite <- H1, H2. split; [done|by eexists].
Qed.

(** X21.  Plain JSON data (numbers, strings, booleans, [None], and lists
    and dictionaries of them) nested less deep than the recursion bound is
    always serialized, and the same way whatever is in the registry,
    whatever [format_exception_as_json] does and whichever objects the
    library encodes on its own: [default] is not asked; and if the library
    reads back its own documents, [loads(dumps(data))] is the data's
    document. *)
Theorem dumps_plain_data
    (lib : backend) (fmt fmt' : exn -> pyobj)
    (registry registry' : gmap pyref replacement)
    (fuel : nat) (data : pyobj) :
  plain fuel data = true ->
  (exists doc text,
     encode lib (default fmt registry) fuel data = Ok doc
     /\ dumps lib fmt registry fuel data = Ok text
     /\ dumps lib fmt' registry' fuel data = Ok text
     /\ (decode_document lib (encode_document lib doc) = Ok doc ->
         round_trip lib fmt registry fuel data = Ok doc)).
Proof.
  intros Hp.
  destruct (plain_encode lib lib (default fmt registry) (default fmt' registry')
              fuel data Hp) as (Heq & doc & Hdoc).
  exists doc, (encode_document lib doc). unfold round_trip, dumps.
  rewrite <- Heq, Hdoc. cbn. repeat split. intros Hread. exact Hread.
Qed.

Lemma dumps_plain_data_example :
  exists doc text,
    encode Samples.sample_backend
      (default Samples.sample_format_exception_object ∅) 2
      (OList [OStr "a"; OStr "b"]) = Ok doc
    /\ dumps Samples.sample_backend Samples.sample_format_exception_object ∅ 2
         (OList [OStr "a"; OStr "b"]) = Ok text
    /\ dumps Samples.sample_backend Samples.sample_format_exception_object
         (register_type_replacement ∅ (AClass "list")
            Samples.quantity_replacement).1 2
         (OList [OStr "a"; OStr "b"]) = Ok text
    /\ (decode_document Samples.sample_backend
          (encode_document Samples.sample_backend doc) = Ok doc ->
        round_trip Samples.sample_backend Samples.sample_format_exception_object
          ∅ 2 (OList [OStr "a"; OStr "b"]) = Ok doc).
Proof.
  apply (dumps_plain_data Samples.sample_backend
           Samples.sample_format_exception_object
           Samples.sample_format_exception_object ∅
           (register_type_replacement ∅ (AClass "list")
              Samples.quantity_replacement).1
           2 (OList [OStr "a"; OStr "b"])).
  reflexivity.
Defined.

Lemma mapM_encode_raises lib hook fuel before obj after e :
  forallb (plain fuel) before = true ->
  encode lib hook fuel obj = Raise e ->
  mapM (encode lib hook fuel) (before ++ obj :: after) = Raise e.
Proof.
  intros Hbefore Hobj. induction before as [|x before IH].
  - cbn. by rewrite Hobj.
  - cbn [forallb] in Hbefore. apply andb_true_iff in Hbefore as [Hx Hbefore].
    destruct (plain_encode lib lib hook hook fuel x Hx) as (_ & d & Hd).
    cbn [app mapM]. rewrite Hd, (IH Hbefore). reflexivity.
Qed.

(** X22.  An instance of a class that has no [json] method, no registered
    replacement and no encoding of the library's own cannot be serialized:
    [dumps] raises a [TypeError], and so does [dumps] of a list that holds
    such an instance after any number of plain elements: nothing is
    skipped or replaced by a placeholder. *)
Theorem dumps_unregistered_instance_raises
    (lib : backend) (fmt : exn -> pyobj) (registry : gmap pyref replacement)
    (fuel : nat) (cls state : string) (before after : list pyobj) :
  native_option lib (OInstance cls state) = None ->
  registry !! AClass cls = None ->
  forallb (plain (S fuel)) before = true ->
  (exists e, dumps lib fmt registry (S fuel) (OInstance cls state) = Raise e
             /\ exn_class e = TypeError)
  /\ (exists e, dumps lib fmt registry (S (S fuel))
                  (OList (before ++ OInstance cls state :: after)) = Raise e
                /\ exn_class e = TypeError).
Proof.
  intros Hnative Hreg Hbefore.
  assert (Hone : forall n,
    encode lib (default fmt registry) (S n) (OInstance cls state)
    = Raise (mk_exn TypeError "Given type cannot be converted to JSON")).
  { intros n. cbn [encode]. rewrite Hnative. cbn [default type_of].
    by rewrite Hreg. }
  unfold dumps. split; eexists.
  - rewrite Hone. split; reflexivity.
  - change (encode lib (default fmt registry) (S (S fuel)) (OList ?l))
      with (PyList <$> mapM (encode lib (default fmt registry) (S fuel)) l).
    rewrite (mapM_encode_raises _ _ _ _ _ _ _ Hbefore (Hone fuel)).
    split; reflexivity.
Qed.

Lemma dumps_unregistered_instance_raises_example :
  exists e,
    dumps Samples.sample_backend Samples.sample_format_exception_object ∅ 2
      (OList ([OStr "a"] ++ OInstance "Quantity" "3 mm" :: [OStr "b"]))
    = Raise e
    /\ exn_class e = TypeError.
Proof.
  apply (proj2 (dumps_unregistered_instance_raises Samples.sample_backend
                  Samples.sample_format_exception_object ∅ 0
                  "Quantity" "3 mm" [OStr "a"] [OStr "b"]
                  eq_refl (lookup_empty _) eq_refl)).
Defined.

End SerializerCoverage.

(** ** The log handlers ([ListHandler], [RemoteAccessHandler]) *)

Section LogHandlers.
Import Logger.

Lemma take_app_take {A} (m : nat) (l k : list A) :
  take m (l ++ take m k) = take m (l ++ k).
Proof.
  rewrite !take_app, take_take. f_equal. f_equal. lia.
Qed.

Lemma stored_cons p c records :
  stored p (c :: records)
  = stored p records
    ++ (if p (levelno c.2)
        then match info_of c.1 c.2 with Ok info => [info] | Raise _ => [] end
        else []).
Proof.
  unfold stored. cbn [omap list_omap].
  destruct (p (levelno c.2)); [|by rewrite app_nil_r].
  destruct (info_of c.1 c.2); [reflexivity|by rewrite app_nil_r].
Qed.

Lemma emit_raises self ident record ex :
  info_of ident record = Raise ex -> emit self ident record = Raise ex.
Proof. intros H. unfold emit. by rewrite H. Qed.

(** What a deque of the handler holds after a sequence of calls to
    [emit], for a deque [get] to which [emit] appends the records whose
    level number satisfies [p]. *)
Lemma emit_all_deque (get : RemoteAccessHandler -> deque) (p : Z -> bool) :
  (forall self ident record info self',
     info_of ident record = Ok info ->
     emit self ident record = Ok self' ->
     get self' = if p (levelno record)
                 then appendleft info (get self) else get self) ->
  forall records self,
    items (get self) = take (maxlen (get self)) (items (get self)) ->
    maxlen (get (emit_all records self)) = maxlen (get self)
    /\ items (get (emit_all records self))
       = take (maxlen (get self)) (stored p records ++ items (get self)).
Proof.
  intros Hstep records. induction records as [|[ident record] records IH];
    intros self Hbounded.
  - split; [reflexivity|]. exact Hbounded.
  - cbn [emit_all fold_left fst snd]. rewrite stored_cons. cbn [fst snd].
    destruct (info_of ident record) as [info|ex] eqn:Hinfo.
    + destruct (emit self ident record) as [self1|ex] eqn:Hemit;
        [|unfold emit in Hemit; rewrite Hinfo in Hemit; discriminate].
      pose proof (Hstep _ _ _ _ _ Hinfo Hemit) as Hget.
      fold (emit_all records self1).
      destruct (p (levelno record)).
      * assert (Hm : maxlen (get self1) = maxlen (get self))
          by (by rewrite Hget).
        assert (Hi : items (get self1)
                     = take (maxlen (get self)) (info :: items (get self)))
          by (by rewrite Hget).
        destruct (IH self1) as [IHm IHi].
        { rewrite Hm, Hi, take_take. f_equal. lia. }
        rewrite IHm, IHi, Hm, Hi. split; [reflexivity|].
        rewrite take_app_take, <- app_assoc. reflexivity.
      * destruct (IH self1) as [IHm IHi]; [by rewrite Hget|].
        rewrite IHm, IHi, Hget, app_nil_r. done.
    + rewrite (emit_raises _ _ _ _ Hinfo).
      fold (emit_all records self).
      destruct (IH self Hbounded) as [IHm IHi].
      rewrite IHm, IHi. split; [reflexivity|].
      by destruct (p (levelno record)); rewrite app_nil_r.
Qed.

Ltac by_level :=
  unfold INFO, WARN, ERROR, CRITICAL;
  repeat match goal with
         | |- context [?a <? ?b] => destruct (Z.ltb_spec a b)
         | |- context [?a <=? ?b] => destruct (Z.leb_spec a b)
         end;
  cbn [andb]; try lia;
  match goal with
  | |- context [if _push_events ?s then _ else _] =>
      destruct (_push_events s)
  end; reflexivity.

Ltac emitted Hinfo Hemit :=
  unfold emit in Hemit; rewrite Hinfo in Hemit;
  cbn [mbind result_bind] in Hemit;
  injection Hemit as <-.

Lemma emit_execution_logs self ident record info self' :
  info_of ident record = Ok info ->
  emit self ident record = Ok self' ->
  _execution_logs self'
  = if (fun _ : Z => true) (levelno record)
    then appendleft info (_execution_logs self) else _execution_logs self.
Proof. intros Hinfo Hemit. emitted Hinfo Hemit. by_level. Qed.

Lemma emit_debug_logs self ident record info self' :
  info_of ident record = Ok info ->
  emit self ident record = Ok self' ->
  _debug_logs self'
  = if (fun n => n <? 20) (levelno record)
    then appendleft info (_debug_logs self) else _debug_logs self.
Proof. intros Hinfo Hemit. emitted Hinfo Hemit. by_level. Qed.

Lemma emit_info_logs self ident record info self' :
  info_of ident record = Ok info ->
  emit self ident record = Ok self' ->
  _info_logs self'
  = if (fun n => (20 <=? n) && (n <? 30)) (levelno record)
    then appendleft info (_info_logs self) else _info_logs self.
Proof. intros Hinfo Hemit. emitted Hinfo Hemit. by_level. Qed.

Lemma emit_warn_logs self ident record info self' :
  info_of ident record = Ok info ->
  emit self ident record = Ok self' ->
  _warn_logs self'
  = if (fun n => (30 <=? n) && (n <? 40)) (levelno record)
    then appendleft info (_warn_logs self) else _warn_logs self.
Proof. intros Hinfo Hemit. emitted Hinfo Hemit. by_level. Qed.

Lemma emit_error_logs self ident record info self' :
  info_of ident record = Ok info ->
  emit self ident record = Ok self' ->
  _error_logs self'
  = if (fun n => (40 <=? n) && (n <? 50)) (levelno record)
    then appendleft info (_error_logs self) else _error_logs self.
Proof. intros Hinfo Hemit. emitted Hinfo Hemit. by_level. Qed.

Lemma emit_critical_logs self ident record info self' :
  info_of ident record = Ok info ->
  emit self ident record = Ok self' ->
  _critical_logs self'
  = if (fun n => 50 <=? n) (levelno record)
    then appendleft info (_critical_logs self) else _critical_logs self.
Proof. intros Hinfo Hemit. emitted Hinfo Hemit. by_level. Qed.

Lemma set_maxlen_succeeds value kwargs self0 self :
  set_maxlen value kwargs self0 = (self, Ok tt) ->
  let len key := Z.to_nat (default (Z.quot value 5) (kwargs !! key)) in
  _execution_logs self = {| maxlen := Z.to_nat value; items := [] |}
  /\ _debug_logs self = {| maxlen := len "len_debug"; items := [] |}
  /\ _info_logs self = {| maxlen := len "len_info"; items := [] |}
  /\ _warn_logs self = {| maxlen := len "len_warn"; items := [] |}
  /\ _error_logs self = {| maxlen := len "len_error"; items := [] |}
  /\ _critical_logs self = {| maxlen := len "len_critical"; items := [] |}.
Proof.
  unfold set_maxlen, assign_deque, deque_new. intros H.
  repeat match type of H with
         | context [?a <? 0] => destruct (a <? 0); [discriminate|]
         end.
  injection H as <-. repeat split.
Qed.

Lemma set_maxlen_other_attributes value kwargs self :
  diff_logs (set_maxlen value kwargs self).1 = diff_logs self
  /\ _push_events (set_maxlen value kwargs self).1 = _push_events self
  /\ _events_thread (set_maxlen value kwargs self).1 = _events_thread self.
Proof.
  unfold set_maxlen, assign_deque, deque_new.
  repeat match goal with
         | |- context [?a <? 0] => destruct (a <? 0); [by repeat split|]
         end.
  by repeat split.
Qed.

(** X24.  The history [RemoteAccessHandler] keeps.  After [set_maxlen]
    returned for a length [value] (below [2^53]) and [emit] was called for
    any sequence of records, [execution_logs] holds the [value] most
    recent entries, the newest first, and each of [debug_logs],
    [info_logs], [warn_logs], [error_logs] and [critical_logs] holds the
    most recent entries of its range of level numbers (below 20, from 20
    to 29, from 30 to 39, from 40 to 49, 50 and above), the newest first,
    as many as its length allows: [len_debug] etc. when given,
    [value] divided by 5 and rounded down otherwise.  The ranges cover
    every level number once; a record for which [format] or the time stamp
    raises is stored nowhere. *)
Theorem emit_keeps_recent_records
    (value : Z) (kwargs : gmap string Z) (self0 self : RemoteAccessHandler)
    (records : list (Z * LogRecord)) :
  set_maxlen value kwargs self0 = (self, Ok tt) ->
  value < 2 ^ 53 ->
  let after := emit_all records self in
  let len key := Z.to_nat (default (Z.quot value 5) (kwargs !! key)) in
  items (_execution_logs after)
  = take (Z.to_nat value) (stored (fun _ => true) records)
  /\ items (_debug_logs after)
     = take (len "len_debug") (stored (fun n => n <? 20) records)
  /\ items (_info_logs after)
     = take (len "len_info")
         (stored (fun n => (20 <=? n) && (n <? 30)) records)
  /\ items (_warn_logs after)
     = take (len "len_warn")
         (stored (fun n => (30 <=? n) && (n <? 40)) records)
  /\ items (_error_logs after)
     = take (len "len_error")
         (stored (fun n => (40 <=? n) && (n <? 50)) records)
  /\ items (_critical_logs after)
     = take (len "len_critical") (stored (fun n => 50 <=? n) records).
Proof.
  intros Hset _ after len. subst after.
  destruct (set_maxlen_succeeds _ _ _ _ Hset)
    as (Hx & Hd & Hi & Hw & He & Hc).
  pose proof (emit_all_deque _execution_logs (fun _ => true)
                emit_execution_logs records self) as Px.
  pose proof (emit_all_deque _debug_logs (fun n => n <? 20)
                emit_debug_logs records self) as Pd.
  pose proof (emit_all_deque _info_logs (fun n => (20 <=? n) && (n <? 30))
                emit_info_logs records self) as Pi.
  pose proof (emit_all_deque _warn_logs (fun n => (30 <=? n) && (n <? 40))
                emit_warn_logs records self) as Pw.
  pose proof (emit_all_deque _error_logs (fun n => (40 <=? n) && (n <? 50))
                emit_error_logs records self) as Pe.
  pose proof (emit_all_deque _critical_logs (fun n => 50 <=? n)
                emit_critical_logs records self) as Pc.
  rewrite Hx in Px. rewrite Hd in Pd. rewrite Hi in Pi. rewrite Hw in Pw.
  rewrite He in Pe. rewrite Hc in Pc. cbn [maxlen items] in *.
  rewrite app_nil_r in Px, Pd, Pi, Pw, Pe, Pc.
  repeat split;
    [apply Px|apply Pd|apply Pi|apply Pw|apply Pe|apply Pc];
    by rewrite take_nil.
Qed.

Lemma emit_keeps_recent_records_example :
  items (_debug_logs
           (emit_all LogSamples.records
              (set_maxlen 10 ∅ LogSamples.unset).1))
  = take 2 (stored (fun n => n <? 20) LogSamples.records).
Proof.
  destruct (emit_keeps_recent_records 10 ∅ LogSamples.unset
              (set_maxlen 10 ∅ LogSamples.unset).1 LogSamples.records)
    as (_ & H & _); [vm_compute; reflexivity | reflexivity | exact H].
Defined.

(** The handler has no events thread, does not collect entries for the
    event, and holds none. *)
Definition idle (self : RemoteAccessHandler) : Prop :=
  _push_events self = false
  /\ _events_thread self = None
  /\ diff_logs self = [].

Lemma init_idle maxlen kwargs err self :
  RemoteAccessHandler_init maxlen kwargs err = Ok self -> idle self.
Proof.
  unfold RemoteAccessHandler_init.
  destruct (set_maxlen _ _ _) as [s [[]|ex]]; [|discriminate].
  destruct err; [discriminate|]. intros [= <-]. by repeat split.
Qed.

Lemma step_idle c self :
  idle self ->
  idle (step c self).1 /\ List.filter starts_or_pushes (step c self).2 = [].
Proof.
  intros (Hp & Ht & Hd). destruct c as [ident record|scheduling e1 e2 thread| |value kwargs|];
    cbn [step].
  - unfold emit. destruct (info_of ident record) as [info|ex];
      cbn [mbind result_bind]; [|by repeat split].
    cbn [fst snd]. unfold INFO, WARN, ERROR, CRITICAL.
    repeat match goal with
           | |- context [?a <? ?b] => destruct (a <? b)
           | |- context [?a <=? ?b] => destruct (a <=? b)
           end; cbn [andb]; cbn; rewrite Hp; by repeat split.
  - unfold push_events. destruct e1; [by repeat split|].
    destruct (String.eqb scheduling "asyncio").
    { destruct e2; by repeat split. }
    destruct (String.eqb scheduling "threading"); [|by repeat split].
    rewrite Ht. by repeat split.
  - unfold stop_events. cbn. rewrite Ht. by repeat split.
  - cbn [fst snd].
    destruct (set_maxlen_other_attributes value kwargs self) as (E1 & E2 & E3).
    unfold idle. rewrite E1, E2, E3. by repeat split.
  - unfold _async_push_diff_logs. rewrite Hp. by repeat split.
Qed.

Lemma run_idle calls : forall self,
  idle self ->
  idle (run calls self).1 /\ List.filter starts_or_pushes (run calls self).2 = [].
Proof.
  induction calls as [|c calls IH]; intros self Hidle; [by split|].
  cbn [run]. destruct (step_idle c self Hidle) as [H1 F1].
  destruct (step c self) as [self1 t1]. cbn [fst snd] in *.
  destruct (IH self1 H1) as [H2 F2].
  destruct (run calls self1) as [self2 t2]. cbn [fst snd] in *.
  split; [exact H2|]. by rewrite List.filter_app, F1, F2.
Qed.

(** X25.  Log events are never pushed.  From the handler [__init__]
    returns, whatever calls of [emit], [push_events], [stop_events] and
    [set_maxlen] follow, and whenever the coroutine [push_events]
    schedules takes a turn: no thread is started, no event is pushed,
    [_push_events] stays false, [_events_thread] stays [None] and
    [diff_logs] stays empty.  For [push_events] itself: a scheduling other
    than ['asyncio'] and ['threading'] (its default ['threaded'] among
    them) raises [ValueError]. *)
Theorem log_events_are_never_pushed
    (maxlen : Z) (kwargs : gmap string Z) (stream_interval_error : option exn)
    (self : RemoteAccessHandler) (calls : list call) :
  RemoteAccessHandler_init maxlen kwargs stream_interval_error = Ok self ->
  List.filter starts_or_pushes (run calls self).2 = []
  /\ _push_events (run calls self).1 = false
  /\ _events_thread (run calls self).1 = None
  /\ diff_logs (run calls self).1 = []
  /\ (forall handler scheduling loop_error thread,
        scheduling <> "asyncio" -> scheduling <> "threading" ->
        exists ex,
          (push_events handler scheduling None loop_error thread).2 = Raise ex
          /\ exn_class ex = ValueError).
Proof.
  intros Hinit.
  destruct (run_idle calls self (init_idle _ _ _ _ Hinit))
    as [(Hp & Ht & Hd) Hf].
  repeat split; try assumption.
  intros handler scheduling loop_error thread H1 H2. unfold push_events.
  apply String.eqb_neq in H1, H2. rewrite H1, H2.
  eexists. split; reflexivity.
Qed.

Lemma log_events_are_never_pushed_example :
  let calls := [PushEvents "threading" None None 7;
                PushEvents "asyncio" None None 7;
                Emit 1 (LogSamples.record "INFO" 20 "a");
                CoroutineTurn] in
  List.filter starts_or_pushes (run calls LogSamples.handler).2 = []
  /\ diff_logs (run calls LogSamples.handler).1 = [].
Proof.
  intros calls.
  destruct (log_events_are_never_pushed 500 ∅ None LogSamples.handler calls)
    as (H1 & _ & _ & H2 & _); [vm_compute; reflexivity|].
  split; assumption.
Defined.

Lemma ListHandler_emit_all_cons self c records (h : list (list entry)) :
  ListHandler_emit_all self (c :: records) h
  = ListHandler_emit_all self records
      (match ListHandler_emit self c.1 c.2 h with
       | Ok h' => h'
       | Raise _ => h
       end).
Proof. reflexivity. Qed.

Lemma ListHandler_emit_all_lookup records : forall (h : list (list entry)) a ys,
  h !! a = Some ys ->
  ListHandler_emit_all {| log_list := a |} records h !! a
  = Some (stored (fun _ => true) records ++ ys)
  /\ forall b, b <> a ->
       ListHandler_emit_all {| log_list := a |} records h !! b = h !! b.
Proof.
  induction records as [|[ident record] records IH]; intros h a ys Ha.
  - split; [exact Ha|reflexivity].
  - rewrite ListHandler_emit_all_cons, stored_cons.
    cbn [fst snd]. unfold ListHandler_emit.
    destruct (info_of ident record) as [info|ex]; cbn [mbind result_bind].
    + cbn [log_list].
      destruct (IH (alter (cons info) a h) a (info :: ys)) as [IH1 IH2].
      { rewrite list_lookup_alter_eq, Ha. reflexivity. }
      split.
      * rewrite <- app_assoc. exact IH1.
      * intros b Hb. etrans; [exact (IH2 b Hb)|].
        apply list_lookup_alter_ne. congruence.
    + rewrite app_nil_r. by apply IH.
Qed.

(** X26.  Which list a [ListHandler] fills.  When it is constructed with
    a list that is not empty, every record emitted afterwards is put at
    the front of that very list, the newest first.  When it is constructed
    with an empty list, that list stays empty whatever is emitted: the
    handler fills a new list of its own.  In both cases no other list is
    touched, and a record for which [format] or the time stamp raises is
    not stored. *)
Theorem ListHandler_fills_given_list_unless_empty
    (h : list (list entry)) (l : nat) (xs : list entry) (records : list (Z * LogRecord)) :
  h !! l = Some xs ->
  let handler := (ListHandler_init (Some l) h).1 in
  let h' := ListHandler_emit_all handler records (ListHandler_init (Some l) h).2 in
  (xs <> [] ->
     log_list handler = l
     /\ h' !! l = Some (stored (fun _ => true) records ++ xs))
  /\ (xs = [] ->
      h' !! l = Some []
      /\ h' !! log_list handler = Some (stored (fun _ => true) records))
  /\ (forall l', l' <> log_list handler -> (l' < length h)%nat ->
        h' !! l' = h !! l').
Proof.
  intros Hl handler h'. subst handler h'. unfold ListHandler_init.
  rewrite Hl. destruct xs as [|x xs]; cbn [fst snd log_list].
  - assert (Hnew : (h ++ [[]]) !! length h = Some (@nil entry)).
    { by rewrite lookup_app_r, Nat.sub_diag by lia. }
    destruct (ListHandler_emit_all_lookup records _ _ _ Hnew) as [H1 H2].
    assert (Hlt : (l < length h)%nat) by (by eapply lookup_lt_Some).
    split; [done|]. split.
    + intros _. split.
      * rewrite H2 by lia. by rewrite lookup_app_l.
      * by rewrite H1, app_nil_r.
    + intros l' Hne Hlt'.
      rewrite H2 by exact Hne. by rewrite lookup_app_l.
  - destruct (ListHandler_emit_all_lookup records _ _ _ Hl) as [H1 H2].
    split; [|split].
    + intros _. split; [reflexivity|exact H1].
    + discriminate.
    + intros l' Hne _. by apply H2.
Qed.

Lemma ListHandler_fills_given_list_unless_empty_example :
  let h : list (list entry) := [[]] in
  let handler := (ListHandler_init (Some 0%nat) h).1 in
  ListHandler_emit_all handler LogSamples.records
    (ListHandler_init (Some 0%nat) h).2 !! 0%nat
  = Some [].
Proof.
  intros h handler.
  destruct (ListHandler_fills_given_list_unless_empty h 0 [] LogSamples.records
              eq_refl) as (_ & H & _).
  exact (proj1 (H eq_refl)).
Defined.

End LogHandlers.

(** ** [ThingsHandler] and [StopHandler] *)

Section Administration.
Import HttpHandlers AdminHandlers.

Lemma responses_app (t1 t2 : list call) :
  responses (t1 ++ t2) = responses t1 ++ responses t2.
Proof. apply omap_app. Qed.

Lemma responses_map_Respond (t : list action) : responses (map Respond t) = t.
Proof.
  induction t as [|a t IH]; [reflexivity|].
  cbn. unfold responses in IH. by rewrite IH.
Qed.

Lemma has_access_control_trace (self : BaseHandler) :
  forall c, c ∈ map Respond (has_access_control self).1 ->
            exists n v, c = Respond (SetHeader n v).
Proof.
  intros c. unfold has_access_control.
  destruct (Nat.eqb _ _).
  { cbn. intros ->%list_elem_of_singleton. eauto. }
  destruct (headers (request self) !! "Origin") as [origin|];
    [|by intros ?%elem_of_nil].
  destruct (_ || _); [|by intros ?%elem_of_nil].
  cbn. intros ->%list_elem_of_singleton. eauto.
Qed.

Lemma granted_by_allow_list (self : BaseHandler) :
  granted self = true <->
  allowed_clients self = []
  \/ exists origin,
       headers (request self) !! "Origin" = Some origin
       /\ (origin ∈ allowed_clients self
           \/ origin +:+ "/" ∈ allowed_clients self).
Proof.
  unfold granted, has_access_control, py_in.
  destruct (allowed_clients self) as [|client clients] eqn:Hlist.
  { cbn. split; [by left|done]. }
  cbn [length Nat.eqb].
  destruct (headers (request self) !! "Origin") as [origin|].
  - destruct (bool_decide (origin ∈ client :: clients)) eqn:H1;
      [|destruct (bool_decide (origin +:+ "/" ∈ client :: clients)) eqn:H2];
      cbn [orb snd].
    + apply bool_decide_eq_true in H1. split; [|done].
      intros _. right. eauto.
    + apply bool_decide_eq_true in H2. split; [|done].
      intros _. right. eauto.
    + apply bool_decide_eq_false in H1, H2. split; [done|].
      intros [|(o & [= <-] & [|])]; done.
  - cbn. split; [done|]. intros [|(o & ? & _)]; done.
Qed.

Ltac admin_absent :=
  rewrite ?not_elem_of_app, ?not_elem_of_cons; repeat split;
  solve [assumption | discriminate | apply not_elem_of_nil].

Ltac admin_refute :=
  match goal with |- ?P -> _ => intros H; exfalso; revert H; change (¬ P) end;
  admin_absent.

Ltac admin_present :=
  rewrite ?elem_of_app, ?elem_of_cons; auto 10.

(** X27.  [ThingsHandler.post].  A request that does not pass the
    allow-list is answered 401 and finished, and nothing is created.  A
    request that passes it is never finished: [create_new] is called for
    the instance name [""], the status is set to 204 when that call, the
    look-up in the pool and the router update all return and to 500 when
    one of them raises an [Exception], and then the inherited
    [set_headers] raises [NotImplementedError], which leaves the handler
    before [finish] is reached. *)
Theorem things_post_finishes_only_when_refused
    (self : BaseHandler) (create_new pool_lookup update_router : option exn) :
  let t := (things_post self create_new pool_lookup update_router).1 in
  let done := (things_post self create_new pool_lookup update_router).2 in
  (granted self = false ->
     done = Returned
     /\ response_status (responses t) = 401
     /\ last t = Some (Respond Finish)
     /\ CreateNew EmptyString ∉ t)
  /\ (granted self = true ->
      (Respond Finish ∉ t)
      /\ CreateNew EmptyString ∈ t
      /\ (exists ex, done = Propagated ex)
      /\ (create_new = None -> pool_lookup = None -> update_router = None ->
          response_status (responses t) = 204
          /\ done = Propagated set_headers)
      /\ (forall ex,
            (things_try create_new pool_lookup update_router).2 = Some ex ->
            isinstance_Exception ex = true ->
            response_status (responses t) = 500
            /\ done = Propagated set_headers)).
Proof.
  intros t done. subst t done. unfold things_post, granted.
  pose proof (has_access_control_trace self) as Htrace.
  destruct (has_access_control self) as [t0 ok]. cbn [fst snd] in *.
  assert (Hfin : Respond Finish ∉ map Respond t0).
  { intros H. by destruct (Htrace _ H) as (n & v & ?). }
  assert (Hnew : CreateNew EmptyString ∉ map Respond t0).
  { intros H. by destruct (Htrace _ H) as (n & v & ?). }
  destruct ok; cbn [negb]; (split; [intros Hok|intros Hno]);
    try discriminate.
  - destruct create_new as [e1|]; [|destruct pool_lookup as [e2|];
      [|destruct update_router as [e3|]]]; cbn [things_try fst snd].
    4: { split; [admin_absent|]. split; [admin_present|].
         split; [eauto|]. split; [|discriminate].
         intros _ _ _. split; [|reflexivity].
         rewrite responses_app, responses_map_Respond.
         by rewrite response_status_app. }
    all: match goal with
         | |- context [isinstance_Exception ?e] =>
             destruct (isinstance_Exception e) eqn:Hex
         end; cbn [fst snd].
    all: split; [admin_absent|]; (split; [admin_present|]);
      (split; [eauto|]); (split; [discriminate|]).
    all: intros ex [= <-] Hex'; try congruence.
    all: split; [|reflexivity].
    all: rewrite !responses_app, responses_map_Respond, app_assoc.
    all: by rewrite response_status_app.
  - cbn [fst snd]. split; [reflexivity|]. split.
    { rewrite responses_app, responses_map_Respond.
      by rewrite response_status_app. }
    split; [by rewrite last_app|]. admin_absent.
Qed.

(** X28.  [StopHandler.post].  The server's [stop] is handed to the event
    loop exactly for the requests that pass the allow-list, that is, when
    the list is empty or the request has an [Origin] header whose value,
    or whose value followed by a slash, is an entry of it (and the event
    loop accepts the call).  A request that does not pass is answered
    401, one whose stop was scheduled 204, and when scheduling raises an
    [Exception] the answer is 500; in all three cases the response is
    finished and nothing is written. *)
Theorem stop_post_schedules_only_when_granted
    (self : BaseHandler) (loop_error : option exn) :
  let t := (stop_post self loop_error).1 in
  let done := (stop_post self loop_error).2 in
  (CallSoonStop ∈ t <->
     loop_error = None
     /\ (allowed_clients self = []
         \/ exists origin,
              headers (request self) !! "Origin" = Some origin
              /\ (origin ∈ allowed_clients self
                  \/ origin +:+ "/" ∈ allowed_clients self)))
  /\ written (responses t) = []
  /\ ((forall ex, loop_error = Some ex ->
         granted self = true -> isinstance_Exception ex = true) ->
      done = Returned
      /\ last t = Some (Respond Finish)
      /\ response_status (responses t)
         = if granted self
           then match loop_error with None => 204 | Some _ => 500 end
           else 401).
Proof.
  intros t done. subst t done.
  rewrite <- (granted_by_allow_list self). unfold stop_post, granted.
  pose proof (has_access_control_trace self) as Htrace.
  assert (Hwritten : written (has_access_control self).1 = []).
  { unfold has_access_control. destruct (Nat.eqb _ _); [done|].
    destruct (headers (request self) !! "Origin"); [|done].
    by destruct (_ || _). }
  destruct (has_access_control self) as [t0 ok]. cbn [fst snd] in *.
  assert (Hstop : CallSoonStop ∉ map Respond t0).
  { intros H. by destruct (Htrace _ H) as (n & v & ?). }
  destruct ok; cbn [negb].
  - destruct loop_error as [ex|];
      [destruct (isinstance_Exception ex) eqn:Hex|]; cbn [fst snd].
    + split; [split; [admin_refute
                     |by intros [? _]]|].
      split.
      { by rewrite responses_app, responses_map_Respond, written_app,
          Hwritten. }
      intros _. split; [reflexivity|].
      split; [by rewrite last_app|].
      rewrite responses_app, responses_map_Respond.
      by rewrite response_status_app.
    + split; [split; [intros H; by apply Hstop in H|by intros [? _]]|].
      split; [by rewrite responses_map_Respond|].
      intros H. specialize (H ex eq_refl eq_refl). congruence.
    + split; [split; [done|intros _; admin_present]|].
      split.
      { by rewrite responses_app, responses_map_Respond, written_app,
          Hwritten. }
      intros _. split; [reflexivity|].
      split.
      { by rewrite last_app. }
      rewrite responses_app, responses_map_Respond.
      by rewrite response_status_app.
  - cbn [fst snd].
    split; [split; [admin_refute|by intros [_ ?]]|].
    split.
    { by rewrite responses_app, responses_map_Respond, written_app,
        Hwritten. }
    intros _. split; [reflexivity|].
    split; [by rewrite last_app|].
    rewrite responses_app, responses_map_Respond.
    by rewrite response_status_app.
Qed.

End Administration.
